(** * GROMACS Copilot: the base protocol class

    A shallow embedding of [gromacs_copilot/protocols/base.py]: the
    constructor of [BaseProtocol], its shell delegate, the MDP parameter
    file generator and the stage setter, over a small model of the Python
    run time they use (strings, ordered dictionaries, exceptions) and of
    the process environment (a directory tree, the working directory,
    the log). *)

From Stdlib Require Import String Ascii List ZArith Bool Lia.
From stdpp Require Import base gmap strings list pretty.

Local Open Scope string_scope.
Local Open Scope list_scope.

(** ** Python strings *)

Module PyStr.

(** [" " * n] *)
Fixpoint spaces (n : nat) : string :=
  match n with
  | O => ""
  | S n' => String " " (spaces n')
  end.

(** A [string] holds the UTF-8 encoding of a Python [str]; the bytes
    from 128 to 191 continue the character begun before them. *)
Definition is_continuation (c : ascii) : bool :=
  let n := nat_of_ascii c in Nat.leb 128 n && Nat.ltb n 192.

(** [len(s)]: the number of characters, which is the number of bytes
    that begin one. *)
Fixpoint len (s : string) : nat :=
  match s with
  | "" => 0
  | String c s' => (if is_continuation c then 0 else 1) + len s'
  end.

(** [f"{s:<width}"]: [s] left-justified in a field of [width]
    characters; a longer [s] is kept whole. *)
Definition ljust (width : nat) (s : string) : string :=
  s +:+ spaces (width - len s).

(** [sep.join(l)] *)
Fixpoint join (sep : string) (l : list string) : string :=
  match l with
  | [] => ""
  | [x] => x
  | x :: l' => x +:+ sep +:+ join sep l'
  end.

(** [x1 + x2 + ... + xn] *)
Definition concat (l : list string) : string := fold_right String.append "" l.

(** [s.split(c)] for a one-character separator: never empty. *)
Fixpoint split (c : ascii) (s : string) : list string :=
  match s with
  | "" => [""]
  | String x s' =>
      if Ascii.eqb x c then "" :: split c s'
      else match split c s' with
           | h :: t => String x h :: t
           | [] => [String x ""]
           end
  end.

(** [c in s] for a character [c]. *)
Fixpoint contains (c : ascii) (s : string) : bool :=
  match s with
  | "" => false
  | String x s' => Ascii.eqb x c || contains c s'
  end.

(** [s.startswith(p)] *)
Fixpoint startswith (p s : string) : bool :=
  match p, s with
  | "", _ => true
  | String a p', String b s' => Ascii.eqb a b && startswith p' s'
  | String _ _, "" => false
  end.

(** [s[:n]] *)
Fixpoint take (n : nat) (s : string) : string :=
  match n, s with
  | S n', String c s' => String c (take n' s')
  | _, _ => ""
  end.

(** [s[n:]] *)
Fixpoint drop (n : nat) (s : string) : string :=
  match n, s with
  | S n', String _ s' => drop n' s'
  | _, _ => s
  end.

Definition hex_digit (n : nat) : ascii :=
  match n with
  | 0 => "0" | 1 => "1" | 2 => "2" | 3 => "3" | 4 => "4" | 5 => "5"
  | 6 => "6" | 7 => "7" | 8 => "8" | 9 => "9" | 10 => "a" | 11 => "b"
  | 12 => "c" | 13 => "d" | 14 => "e" | _ => "f"
  end%char.

Definition backslash : ascii := ascii_of_nat 92.
Definition squote : ascii := ascii_of_nat 39.
Definition dquote : ascii := ascii_of_nat 34.
Definition newline : ascii := ascii_of_nat 10.

(** The one-character string of a line break. *)
Definition nl : string := String newline "".

(** One character of [repr(s)], inside the quotes [q].  Bytes from 128
    up belong to the UTF-8 encoding of a character and are kept, as
    Python keeps a printable character: this is [repr] for the strings
    whose characters outside ASCII are all printable. *)
Definition repr_char (q c : ascii) : string :=
  let n := nat_of_ascii c in
  if Ascii.eqb c q || Ascii.eqb c backslash then String backslash (String c "")
  else if Nat.eqb n 9 then String backslash "t"
  else if Nat.eqb n 10 then String backslash "n"
  else if Nat.eqb n 13 then String backslash "r"
  else if Nat.ltb n 32 || Nat.eqb n 127
       then String backslash
              (String "x" (String (hex_digit (n / 16)) (String (hex_digit (n mod 16)) "")))
  else String c "".

Fixpoint repr_body (q : ascii) (s : string) : string :=
  match s with
  | "" => ""
  | String c s' => repr_char q c +:+ repr_body q s'
  end.

(** [repr(s)] of a string: single quotes, unless the string holds a
    single quote and no double quote. *)
Definition repr (s : string) : string :=
  let q := if contains squote s && negb (contains dquote s) then dquote else squote in
  String q (repr_body q s) +:+ String q "".

(** [repr(l)] of a list of strings, which is also [str(l)] and
    [f"{l}"]. *)
Definition repr_list (l : list string) : string :=
  "[" +:+ join ", " (map repr l) +:+ "]".

(** [x in l] for a list of strings. *)
Definition list_contains (x : string) (l : list string) : bool :=
  existsb (String.eqb x) l.

(** [needle] occurs in [hay]. *)
Definition occurs_in (needle hay : string) : Prop :=
  exists pre post, hay = pre +:+ needle +:+ post.

End PyStr.

(** ** Python dictionaries

    A [dict] keeps its keys in insertion order, and the parameter file
    lists them in that order: an association list, in which a
    well-formed dictionary has each key once. *)

Module Dict.

Definition dict (V : Type) : Type := list (string * V).

(** [d.get(k)], and [d[k]] when it is [Some]. *)
Fixpoint get {V} (d : dict V) (k : string) : option V :=
  match d with
  | [] => None
  | (k', v) :: d' => if String.eqb k' k then Some v else get d' k
  end.

(** [list(d)]: the keys, in insertion order. *)
Definition keys {V} (d : dict V) : list string := map fst d.

(** [k in d] *)
Definition mem {V} (k : string) (d : dict V) : bool :=
  existsb (String.eqb k) (keys d).

(** [d[k] = v]: the value of a present key is replaced where it
    stands, a new key goes to the end. *)
Fixpoint set {V} (d : dict V) (k : string) (v : V) : dict V :=
  match d with
  | [] => [(k, v)]
  | (k', v') :: d' =>
      if String.eqb k' k then (k', v) :: d' else (k', v') :: set d' k v
  end.

(** [d.update(other)]: the items of [other], in its order. *)
Definition update {V} (d other : dict V) : dict V :=
  fold_left (fun acc kv => set acc (fst kv) (snd kv)) other d.

(** No key twice: what every Python [dict] satisfies. *)
Definition wf {V} (d : dict V) : Prop := NoDup (keys d).

End Dict.

Import Dict.

(** ** Exceptions and the state-and-exception monad *)

(** The exception classes the code can meet.  All but
    [KeyboardInterrupt] derive from [Exception]; the classes from
    [FileNotFoundError] to [PermissionError] derive from [OSError]. *)
Inductive exn_class : Type :=
| KeyError | AttributeError | OSError | FileNotFoundError | NotADirectoryError
| IsADirectoryError | FileExistsError | PermissionError | RuntimeError
| KeyboardInterrupt.

(** A raised exception: its class and [str(e)]. *)
Record exn : Type := Exn { exn_class_of : exn_class; exn_str : string }.

(** [except Exception] *)
Definition isinstance_Exception (e : exn) : bool :=
  match exn_class_of e with
  | KeyboardInterrupt => false
  | _ => true
  end.

(** [except KeyError] *)
Definition isinstance_KeyError (e : exn) : bool :=
  match exn_class_of e with
  | KeyError => true
  | _ => false
  end.

Inductive Outcome (A : Type) : Type :=
| Returned (a : A)
| Raised (e : exn).
Arguments Returned {A} a.
Arguments Raised {A} e.

(** A computation over a state [S] that returns or raises. *)
Definition M (S A : Type) : Type := S -> Outcome A * S.

Definition ret {S A} (a : A) : M S A := fun s => (Returned a, s).

Definition raise {S A} (e : exn) : M S A := fun s => (Raised e, s).

Definition bind {S A B} (c : M S A) (k : A -> M S B) : M S B :=
  fun s =>
    match c s with
    | (Returned a, s') => k a s'
    | (Raised e, s') => (Raised e, s')
    end.

Definition get_st {S} : M S S := fun s => (Returned s, s).

Definition put_st {S} (s : S) : M S unit := fun _ => (Returned tt, s).

(** [try: body / except <matches> as e: handler e]; the state changes
    the body made before it raised are kept. *)
Definition try_except {S A} (body : M S A) (matches : exn -> bool)
    (handler : exn -> M S A) : M S A :=
  fun s =>
    match body s with
    | (Returned a, s') => (Returned a, s')
    | (Raised e, s') => if matches e then handler e s' else (Raised e, s')
    end.

Declare Scope py_scope.
Delimit Scope py_scope with py.
Notation "x <- c1 ;; c2" := (bind c1 (fun x => c2))
  (at level 100, c1 at next level, right associativity) : py_scope.
Notation "c1 ;; c2" := (bind c1 (fun _ => c2))
  (at level 100, right associativity) : py_scope.
Local Open Scope py_scope.

(** ** The process environment *)

(** A directory tree: the children of a directory by name.  Every
    entry has one name: the tree has no symbolic and no hard links. *)
#[warnings="-register-all"]
Inductive node : Type :=
| File (content : string)
| Dir (children : gmap string node).

(** The node a path leads to, from the node [n]; every component before
    the last has to be a directory. *)
Fixpoint stat (n : node) (p : list string) : option node :=
  match p with
  | [] => Some n
  | c :: p' =>
      match n with
      | Dir ch => match ch !! c with
                  | Some n' => stat n' p'
                  | None => None
                  end
      | File _ => None
      end
  end.

(** The tree with [x] at the path [p], whose parent has to be a
    directory of the tree (the tree is unchanged otherwise). *)
Fixpoint put_node (n : node) (p : list string) (x : node) : node :=
  match p with
  | [] => x
  | c :: p' =>
      match n with
      | Dir ch =>
          match ch !! c, p' with
          | Some n', _ => Dir (<[c := put_node n' p' x]> ch)
          | None, [] => Dir (<[c := x]> ch)
          | None, _ :: _ => n
          end
      | File _ => n
      end
  end.

(** What the process sees: its working directory, the tree from the
    root, the errors the system answers with for reasons outside the
    tree (permissions, a full disk, a read-only mount), and the log.
    [open_error p] is the text of the [OSError] raised when [p] is
    created or opened for writing; [write_error p] says after how many
    characters a write to [p] breaks, and with which text (the answer
    is taken by place, whatever the text written);
    [chdir_error p] is the text of the [PermissionError] raised when
    the process may not enter the directory [p]. *)
Record World : Type := {
  cwd : list string;
  root : node;
  open_error : list string -> option string;
  write_error : list string -> option (nat * string);
  chdir_error : list string -> option string;
  log : list string
}.

Definition set_root (w : World) (r : node) : World :=
  {| cwd := cwd w; root := r; open_error := open_error w;
     write_error := write_error w; chdir_error := chdir_error w; log := log w |}.

Definition set_cwd (w : World) (p : list string) : World :=
  {| cwd := p; root := root w; open_error := open_error w;
     write_error := write_error w; chdir_error := chdir_error w; log := log w |}.

Definition add_log (w : World) (line : string) : World :=
  {| cwd := cwd w; root := root w; open_error := open_error w;
     write_error := write_error w; chdir_error := chdir_error w;
     log := log w ++ [line] |}.

(** *** [os.path] on POSIX *)

Module PosixPath.

Definition slash : ascii := "/"%char.

(** [os.path.isabs] *)
Definition isabs (p : string) : bool := PyStr.startswith "/" p.

Definition endswith_slash (p : string) : bool :=
  match String.length p with
  | O => false
  | S n => match String.get n p with
           | Some c => Ascii.eqb c slash
           | None => false
           end
  end.

(** [os.path.join(a, b)] *)
Definition join (a b : string) : string :=
  if isabs b then b
  else if String.eqb a "" || endswith_slash a then a +:+ b
  else a +:+ "/" +:+ b.

(** One round of the loop of [normpath]; [stack] holds the components
    kept so far, the last one first. *)
Definition norm_step (initial_slashes : nat) (stack : list string) (comp : string)
    : list string :=
  if String.eqb comp "" || String.eqb comp "." then stack
  else if negb (String.eqb comp "..")
          || (Nat.eqb initial_slashes 0 && match stack with [] => true | _ => false end)
          || match stack with top :: _ => String.eqb top ".." | [] => false end
       then comp :: stack
  else match stack with
       | _ :: stack' => stack'
       | [] => stack
       end.

Definition initial_slashes (path : string) : nat :=
  if PyStr.startswith "/" path then
    if PyStr.startswith "//" path && negb (PyStr.startswith "///" path) then 2 else 1
  else 0.

Definition norm_components (path : string) : list string :=
  rev (fold_left (norm_step (initial_slashes path)) (PyStr.split slash path) []).

(** [os.path.normpath] *)
Definition normpath (path : string) : string :=
  if String.eqb path "" then "."
  else
    let p := PyStr.join "/" (norm_components path) in
    let p := match initial_slashes path with
             | 0 => p
             | 1 => "/" +:+ p
             | _ => "//" +:+ p
             end in
    if String.eqb p "" then "." else p.

(** [os.path.abspath], given what [os.getcwd()] returns. *)
Definition abspath (getcwd path : string) : string :=
  normpath (if isabs path then path else join getcwd path).

End PosixPath.

(** [os.getcwd()] *)
Definition getcwd (w : World) : string := "/" +:+ PyStr.join "/" (cwd w).

(** The place in the tree that a path given to a system call names:
    relative paths start from the working directory.  The resolution is
    by name only (the tree has no symbolic links). *)
Definition resolve (w : World) (path : string) : list string :=
  PosixPath.norm_components (PosixPath.abspath (getcwd w) path).

(** [os.path.exists] *)
Definition path_exists (w : World) (path : string) : bool :=
  match stat (root w) (resolve w path) with
  | Some _ => true
  | None => false
  end.

Definition is_dir (w : World) (p : list string) : Prop :=
  exists ch, stat (root w) p = Some (Dir ch).

Definition os_error (c : exn_class) (errno : string) (what : string) (path : string) : exn :=
  Exn c ("[Errno " +:+ errno +:+ "] " +:+ what +:+ ": " +:+ PyStr.repr path).

(** The exception that creating the entry [p] (named [path]) raises;
    [None] when it can be created or, for a file, overwritten. *)
Definition entry_error (w : World) (for_dir : bool) (path : string) (p : list string)
    : option exn :=
  match p with
  | [] => Some (if for_dir then os_error FileExistsError "17" "File exists" path
                else os_error IsADirectoryError "21" "Is a directory" path)
  | _ :: _ =>
      match stat (root w) (removelast p) with
      | None => Some (os_error FileNotFoundError "2" "No such file or directory" path)
      | Some (File _) => Some (os_error NotADirectoryError "20" "Not a directory" path)
      | Some (Dir _) =>
          match stat (root w) p, for_dir with
          | Some _, true => Some (os_error FileExistsError "17" "File exists" path)
          | Some (Dir _), false => Some (os_error IsADirectoryError "21" "Is a directory" path)
          | _, _ =>
              match open_error w p with
              | Some text => Some (Exn OSError text)
              | None => None
              end
          end
      end
  end.

(** The absolute name of a place in the tree. *)
Definition render (p : list string) : string := "/" +:+ PyStr.join "/" p.

(** [os.mkdir(path)], where [path] names the entry at [p]. *)
Definition mkdir_at (path : string) (p : list string) : M World unit :=
  fun w =>
    match entry_error w true path p with
    | Some e => (Raised e, w)
    | None => (Returned tt, set_root w (put_node (root w) p (Dir ∅)))
    end.

(** [os.makedirs] of the place [pre ++ todo] of an absolute normalised
    path that begins with the slashes [lead]: the missing ancestors are
    made from the top, then the directory itself, which must not
    exist.  Each is named by its part of the path. *)
Fixpoint makedirs_from (lead : string) (pre todo : list string) : M World unit :=
  match todo with
  | [] => mkdir_at (lead +:+ PyStr.join "/" pre) pre
  | [c] => mkdir_at (lead +:+ PyStr.join "/" (pre ++ [c])) (pre ++ [c])
  | c :: todo' =>
      (fun w => match stat (root w) (pre ++ [c]) with
                | Some _ => ret tt w
                | None => mkdir_at (lead +:+ PyStr.join "/" (pre ++ [c])) (pre ++ [c]) w
                end) ;;
      makedirs_from lead (pre ++ [c]) todo'
  end.

(** [os.makedirs(path)] *)
Definition makedirs (path : string) : M World unit :=
  fun w =>
    makedirs_from (match PosixPath.initial_slashes path with 2 => "//" | _ => "/" end)
                  [] (resolve w path) w.

(** [os.chdir(path)] *)
Definition chdir (path : string) : M World unit :=
  fun w =>
    let p := resolve w path in
    match stat (root w) p with
    | Some (Dir _) =>
        match chdir_error w p with
        | Some text => (Raised (Exn PermissionError text), w)
        | None => (Returned tt, set_cwd w p)
        end
    | Some (File _) => (Raised (os_error NotADirectoryError "20" "Not a directory" path), w)
    | None => (Raised (os_error FileNotFoundError "2" "No such file or directory" path), w)
    end.

(** [with open(path, "w") as f: f.write(content)].  Opening creates or
    empties the file; a write that breaks leaves the characters written
    before the error. *)
Definition write_file (path content : string) : M World unit :=
  fun w =>
    let p := resolve w path in
    match entry_error w false path p with
    | Some e => (Raised e, w)
    | None =>
        match write_error w p with
        | Some (n, text) =>
            (Raised (Exn OSError text),
             set_root w (put_node (root w) p (File (PyStr.take n content))))
        | None => (Returned tt, set_root w (put_node (root w) p (File content)))
        end
    end.

(** [logging.info(line)] *)
Definition logging_info (line : string) : M World unit :=
  fun w => (Returned tt, add_log w line).

(** ** The protocol *)

(** A member of an [Enum] class. *)
Record Member : Type := { name : string; value : Z }.

(** The attributes of a protocol instance. *)
Record BaseProtocol : Type := { workspace : string; stage : Member }.

(** The values of the result dictionaries. *)
Inductive PyObj (Value : Type) : Type :=
| OBool (b : bool)
| OStr (s : string)
| OParams (d : dict Value).
Arguments OBool {Value} b.
Arguments OStr {Value} s.
Arguments OParams {Value} d.

(** Run a computation on the environment from inside a method; the
    instance is out of its reach. *)
Definition lift_world {A} (c : M World A) : M (BaseProtocol * World) A :=
  fun s =>
    match c (snd s) with
    | (o, w') => (o, (fst s, w'))
    end.

Definition get_self : M (BaseProtocol * World) BaseProtocol :=
  fun s => (Returned (fst s), s).

(** [self.stage = m] *)
Definition set_self_stage (m : Member) : M (BaseProtocol * World) unit :=
  fun s => (Returned tt, ({| workspace := workspace (fst s); stage := m |}, snd s)).

(** The default of the argument [workspace] of the constructor. *)
Definition default_workspace : string := "./md_workspace".

(** The two abstract methods, which every concrete protocol supplies;
    the base class gives them no body. *)
Class ProtocolHooks (Value : Type) : Type := {
  get_state : M (BaseProtocol * World) (dict (PyObj Value));
  check_prerequisites : M (BaseProtocol * World) (dict (PyObj Value))
}.

Section Protocol.

(** The parameter values ([Any] in the source) and [f"{value}"].
    [Value] is the type of the values whose formatting returns a text:
    the text of the file is built before the [try], so that an
    exception of [__format__] would leave [create_mdp_file]; such
    values are outside [Value]. *)
Context {Value : Type}.
Variable py_format : Value -> string.

(** [gromacs_copilot.config]: the list of the parameter file types and
    the default parameters of each. *)
Variable MDP_TYPES : list string.
Variable DEFAULT_MDP_PARAMS : dict (dict Value).

(** [gromacs_copilot.core.enums.SimulationStage]: its members, in the
    order of their definition. *)
Variable SimulationStage : list Member.

(** [gromacs_copilot.utils.shell.run_shell_command]: it is given the
    command and the two flags, and acts on the environment. *)
Context {ShellResult : Type}.
Variable utils_run_shell_command : string -> bool -> bool -> M World ShellResult.

Definition find_member (s : string) : option Member :=
  find (fun m => String.eqb (name m) s) SimulationStage.

(** [SimulationStage[s]] *)
Definition enum_getitem {S} (s : string) : M S Member :=
  match find_member s with
  | Some m => ret m
  | None => raise (Exn KeyError (PyStr.repr s))
  end.

(** [SimulationStage.<s>] *)
Definition enum_getattr {S} (s : string) : M S Member :=
  match find_member s with
  | Some m => ret m
  | None => raise (Exn AttributeError s)
  end.

(** [[s.name for s in SimulationStage]] *)
Definition stage_names : list string := map name SimulationStage.

(** [BaseProtocol.__init__(self, workspace)] *)
Definition __init__ (workspace_arg : string) : M World BaseProtocol :=
  w0 <- get_st ;;
  let self_workspace := PosixPath.abspath (getcwd w0) workspace_arg in
  self_stage <- enum_getattr "SETUP" ;;
  (w1 <- get_st ;;
   if negb (path_exists w1 self_workspace) then makedirs self_workspace else ret tt) ;;
  chdir self_workspace ;;
  logging_info ("Protocol initialized with workspace: " +:+ self_workspace) ;;
  ret {| workspace := self_workspace; stage := self_stage |}.

(** [BaseProtocol.run_shell_command] *)
Definition run_shell_command (command : string) (capture_output suppress_output : bool)
    : M (BaseProtocol * World) ShellResult :=
  lift_world (utils_run_shell_command command capture_output suppress_output).

(** One line of the parameter file. *)
Definition mdp_line (kv : string * Value) : string :=
  PyStr.ljust 20 (fst kv) +:+ " = " +:+ py_format (snd kv) +:+ PyStr.nl.

Definition mdp_header (mdp_type : string) : string :=
  "; " +:+ mdp_type +:+ ".mdp - Generated by GROMACS Copilot" +:+ PyStr.nl.

(** The text built by the loop over [mdp_params.items()]. *)
Definition mdp_content (mdp_type : string) (mdp_params : dict Value) : string :=
  fold_left (fun acc kv => acc +:+ mdp_line kv) mdp_params (mdp_header mdp_type).

(** [if params: mdp_params.update(params)] on the copy of the
    defaults, so that the configuration itself never changes; [None]
    and the empty dictionary are false. *)
Definition effective_params (defaults : dict Value) (params : option (dict Value))
    : dict Value :=
  match params with
  | Some (kv :: rest) => Dict.update defaults (kv :: rest)
  | Some [] | None => defaults
  end.

Definition unknown_type_error (mdp_type : string) : string :=
  "Unknown MDP type: " +:+ mdp_type +:+ ". Available types: " +:+ PyStr.repr_list MDP_TYPES.

(** [BaseProtocol.create_mdp_file] *)
Definition create_mdp_file (mdp_type : string) (params : option (dict Value))
    : M (BaseProtocol * World) (dict (PyObj Value)) :=
  if negb (PyStr.list_contains mdp_type MDP_TYPES) then
    ret [("success", OBool false); ("error", OStr (unknown_type_error mdp_type))]
  else
    defaults <- match Dict.get DEFAULT_MDP_PARAMS mdp_type with
                | Some d => ret d
                | None => raise (Exn KeyError (PyStr.repr mdp_type))
                end ;;
    let mdp_params := effective_params defaults params in
    let content := mdp_content mdp_type mdp_params in
    let file_path := mdp_type +:+ ".mdp" in
    failed <- try_except
                (lift_world (write_file file_path content) ;; ret None)
                isinstance_Exception
                (fun e => ret (Some [("success", OBool false);
                                     ("error", OStr ("Failed to write MDP file: " +:+ exn_str e))])) ;;
    match failed with
    | Some result => ret result
    | None =>
        ret [("success", OBool true); ("file_path", OStr file_path);
             ("mdp_type", OStr mdp_type); ("params", OParams mdp_params)]
    end.

Definition unknown_stage_error (stage_arg : string) : string :=
  "Unknown stage: " +:+ stage_arg +:+ ". Available stages: " +:+ PyStr.repr_list stage_names.

(** [BaseProtocol.set_simulation_stage] *)
Definition set_simulation_stage (stage_arg : string)
    : M (BaseProtocol * World) (dict (PyObj Value)) :=
  try_except
    (m <- enum_getitem stage_arg ;;
     set_self_stage m ;;
     self <- get_self ;;
     ret [("success", OBool true); ("stage", OStr (name (stage self)));
          ("previous_stage", OStr (name (stage self)))])
    isinstance_KeyError
    (fun _ => ret [("success", OBool false); ("error", OStr (unknown_stage_error stage_arg))]).

End Protocol.

(** ** A concrete setting

    Parameter values of the built-in types whose text is modelled (an
    [int] is one that Python converts to text: of at most 4300 digits
    with the default limit), the five parameter file types that the docstring of [create_mdp_file]
    names with a few defaults each, a stage enumeration, and a world
    with a home directory. *)

Inductive PyValue : Type :=
| PyString (s : string)
| PyInt (z : Z)
| PyBool (b : bool)
| PyNone.

(** [f"{v}"] *)
Definition format_PyValue (v : PyValue) : string :=
  match v with
  | PyString s => s
  | PyInt z => pretty z
  | PyBool true => "True"
  | PyBool false => "False"
  | PyNone => "None"
  end.

Module Sample.

Definition MDP_TYPES : list string := ["ions"; "em"; "nvt"; "npt"; "md"].

Definition em_defaults : dict PyValue :=
  [("integrator", PyString "steep"); ("emtol", PyInt 1000);
   ("nsteps", PyInt 50000); ("cutoff-scheme", PyString "Verlet")].

Definition DEFAULT_MDP_PARAMS : dict (dict PyValue) :=
  [("ions", [("integrator", PyString "steep"); ("nsteps", PyInt 50000)]);
   ("em", em_defaults);
   ("nvt", [("integrator", PyString "md"); ("nsteps", PyInt 50000);
            ("tcoupl", PyString "V-rescale"); ("gen_vel", PyString "yes")]);
   ("npt", [("integrator", PyString "md"); ("nsteps", PyInt 50000);
            ("pcoupl", PyString "Parrinello-Rahman"); ("gen_vel", PyString "no")]);
   ("md", [("integrator", PyString "md"); ("nsteps", PyInt 5000000)])].

(** Overrides of one default and one new key. *)
Definition overrides : dict PyValue :=
  [("nsteps", PyInt 10); ("define", PyString "-DPOSRES")].

(** An override whose value holds a line break. *)
Definition two_line_overrides : dict PyValue :=
  [("title", PyString ("first line" +:+ PyStr.nl +:+ "second line"))].

Definition SimulationStage : list Member :=
  [{| name := "SETUP"; value := 1 |};
   {| name := "ENERGY_MINIMIZATION"; value := 2 |};
   {| name := "EQUILIBRATION"; value := 3 |};
   {| name := "PRODUCTION"; value := 4 |}].

(** [/home/user] and [/etc/hostname]; no error from outside the tree. *)
Definition world : World :=
  {| cwd := ["home"; "user"];
     root := Dir {[ "home" := Dir {[ "user" := Dir ∅ ]};
                    "etc" := Dir {[ "hostname" := File "box" ]} ]};
     open_error := fun _ => None;
     write_error := fun _ => None;
     chdir_error := fun _ => None;
     log := [] |}.

(** The same world with a disk that takes no more than ten characters
    of [em.mdp] in the workspace. *)
Definition full_disk_world : World :=
  {| cwd := ["home"; "user"];
     root := root world;
     open_error := fun _ => None;
     write_error := fun p =>
       if decide (p = ["home"; "user"; "em.mdp"])
       then Some (10, "[Errno 28] No space left on device")
       else None;
     chdir_error := fun _ => None;
     log := [] |}.

Definition protocol : BaseProtocol :=
  {| workspace := "/home/user"; stage := {| name := "SETUP"; value := 1 |} |}.

End Sample.

(** ** Reading a parameter file back

    The reader of the round-trip property, as the property words it:
    every line that is not a comment is split at [" = "], and the
    padding of the key is trimmed.  The values come back as text. *)

Module MdpReader.

(** [s.partition(sep)]: the parts before and after the first [sep]. *)
Fixpoint split_once (sep s : string) : option (string * string) :=
  if PyStr.startswith sep s then Some ("", PyStr.drop (String.length sep) s)
  else match s with
       | "" => None
       | String c s' =>
           match split_once sep s' with
           | Some (l, r) => Some (String c l, r)
           | None => None
           end
       end.

(** [s.rstrip(" ")] *)
Fixpoint rstrip (s : string) : string :=
  match s with
  | "" => ""
  | String c s' =>
      match rstrip s' with
      | "" => if Ascii.eqb c " " then "" else String c ""
      | r => String c r
      end
  end.

Definition read_line (line : string) : option (string * string) :=
  if String.eqb line "" || PyStr.startswith ";" line then None
  else match split_once " = " line with
       | Some (k, v) => Some (rstrip k, v)
       | None => None
       end.

Fixpoint read_lines (lines : list string) : dict string :=
  match lines with
  | [] => []
  | line :: rest =>
      match read_line line with
      | Some kv => kv :: read_lines rest
      | None => read_lines rest
      end
  end.

Definition read_mdp (content : string) : dict string :=
  read_lines (PyStr.split PyStr.newline content).

(** A key that comes back from its line: no ["="], no line break, no
    [";"] in front, no space at the end. *)
Definition readable_key (k : string) : Prop :=
  PyStr.contains "=" k = false /\
  PyStr.contains PyStr.newline k = false /\
  PyStr.startswith ";" k = false /\
  rstrip k = k.

(** A text that stays on its line. *)
Definition one_line (s : string) : Prop := PyStr.contains PyStr.newline s = false.

End MdpReader.

(** A path is writable when neither the tree nor the system refuses the
    file. *)
Definition writable (w : World) (path : string) : Prop :=
  entry_error w false path (resolve w path) = None /\
  write_error w (resolve w path) = None.

(** The text of each value of a dictionary. *)
Definition texts {Value} (py_format : Value -> string) (d : dict Value) : dict string :=
  map (fun kv => (fst kv, py_format (snd kv))) d.

(** ** Names

    Two kinds of well-behaved strings: the texts that [repr] only puts
    between single quotes, and the names of directory entries. *)

(** A printable ASCII character other than the single quote and the
    backslash. *)
Definition plain_char (c : ascii) : bool :=
  let n := nat_of_ascii c in
  Nat.leb 32 n && Nat.ltb n 127
  && negb (Ascii.eqb c PyStr.squote) && negb (Ascii.eqb c PyStr.backslash).

Fixpoint plain_text (s : string) : bool :=
  match s with
  | "" => true
  | String c s' => plain_char c && plain_text s'
  end.

(** A name a directory entry can have: not empty, not [.] or [..], and
    without a slash. *)
Definition entry_name (s : string) : bool :=
  negb (String.eqb s "") && negb (String.eqb s ".") && negb (String.eqb s "..")
  && negb (PyStr.contains PosixPath.slash s).

(** A place of the tree given by entry names. *)
Definition entry_path (p : list string) : Prop := Forall (fun s => entry_name s = true) p.

(** The result dictionary of a successful [create_mdp_file]. *)
Definition mdp_success {Value} (mdp_type : string) (mdp_params : dict Value)
    : dict (PyObj Value) :=
  [("success", OBool true); ("file_path", OStr (mdp_type +:+ ".mdp"));
   ("mdp_type", OStr mdp_type); ("params", OParams mdp_params)].

(** A configuration that lists a type without defaults, and an
    enumeration without [SETUP]. *)
Module Incomplete.

Definition MDP_TYPES : list string := ["ions"; "em"].

Definition DEFAULT_MDP_PARAMS : dict (dict PyValue) :=
  [("ions", [("integrator", PyString "steep"); ("nsteps", PyInt 50000)])].

End Incomplete.

(** What a world keeps of another: the working directory, the log, the
    answers of the system, every file other than [target], and the
    directories. *)
Definition keeps (w w' : World) (target : option (list string)) : Prop :=
  cwd w' = cwd w /\ log w' = log w /\
  open_error w' = open_error w /\ write_error w' = write_error w /\
  chdir_error w' = chdir_error w /\
  (forall q s, Some q <> target -> stat (root w) q = Some (File s) ->
               stat (root w') q = Some (File s)) /\
  (forall q, is_dir w q -> is_dir w' q).

(** * Properties *)

(** ** Strings *)

Lemma append_cons (x : ascii) (a b : string) : String x a +:+ b = String x (a +:+ b).
Proof. reflexivity. Qed.

Lemma append_empty_l (a : string) : "" +:+ a = a.
Proof. reflexivity. Qed.

Lemma append_assoc (a b c : string) : (a +:+ b) +:+ c = a +:+ (b +:+ c).
Proof.
  induction a as [|x a IH]; [reflexivity|].
  now rewrite !append_cons, IH.
Qed.

Lemma append_empty_r (a : string) : a +:+ "" = a.
Proof.
  induction a as [|x a IH]; [reflexivity|].
  now rewrite append_cons, IH.
Qed.

Lemma occurs_in_refl (s : string) : PyStr.occurs_in s s.
Proof. exists "", "". now rewrite append_empty_l, append_empty_r. Qed.







(** A key of two characters in three bytes is followed by 18 spaces. *)
Example ljust_counts_characters :
  let k := String "n" (String (ascii_of_nat 195) (String (ascii_of_nat 169) "")) in
  PyStr.len k = 2 /\ String.length k = 3 /\ PyStr.ljust 20 k = k +:+ PyStr.spaces 18.
Proof. repeat split. Qed.

Lemma occurs_in_append_l (x a b : string) :
  PyStr.occurs_in x a -> PyStr.occurs_in x (a +:+ b).
Proof.
  intros (pre & post & ->). exists pre, (post +:+ b).
  now rewrite !append_assoc.
Qed.

Lemma occurs_in_append_r (x a b : string) :
  PyStr.occurs_in x b -> PyStr.occurs_in x (a +:+ b).
Proof.
  intros (pre & post & ->). exists (a +:+ pre), post.
  now rewrite !append_assoc.
Qed.

(** Every element of a joined list occurs in the joined text. *)
Lemma occurs_in_join (sep x : string) (l : list string) :
  In x l -> PyStr.occurs_in x (PyStr.join sep l).
Proof.
  induction l as [|y l IH]; intros Hin; [destruct Hin|].
  destruct Hin as [->|Hin].
  - destruct l as [|z l]; simpl.
    + apply occurs_in_refl.
    + apply occurs_in_append_l, occurs_in_refl.
  - destruct l as [|z l]; [destruct Hin|].
    change (PyStr.join sep (y :: z :: l)) with (y +:+ sep +:+ PyStr.join sep (z :: l)).
    apply occurs_in_append_r, occurs_in_append_r, IH, Hin.
Qed.

Lemma occurs_in_repr_list (x : string) (l : list string) :
  In x l -> PyStr.occurs_in (PyStr.repr x) (PyStr.repr_list l).
Proof.
  intros Hin. unfold PyStr.repr_list.
  apply occurs_in_append_r, occurs_in_append_l, occurs_in_join.
  now apply in_map.
Qed.

Lemma list_contains_In (x : string) (l : list string) :
  PyStr.list_contains x l = true <-> In x l.
Proof.
  unfold PyStr.list_contains. rewrite existsb_exists. split.
  - intros (y & Hy & Heq). apply String.eqb_eq in Heq. now subst.
  - intros Hin. exists x. split; [exact Hin | apply String.eqb_refl].
Qed.

Lemma list_contains_not_In (x : string) (l : list string) :
  PyStr.list_contains x l = false <-> ~ In x l.
Proof.
  rewrite <- list_contains_In. destruct (PyStr.list_contains x l); split; congruence.
Qed.

(** ** Dictionaries *)

Module DictFacts.


Lemma get_None_not_In {V} (d : dict V) (k : string) :
  Dict.get d k = None <-> ~ In k (Dict.keys d).
Proof.
  induction d as [|[k' v] d IH]; simpl.
  - tauto.
  - destruct (String.eqb_spec k' k) as [->|Hne].
    + split; [discriminate | intros H; exfalso; apply H; now left].
    + rewrite IH. split; [intros H [Heq|Hin]; [congruence | tauto] | tauto].
Qed.

Lemma get_set_eq {V} (d : dict V) (k : string) (v : V) :
  Dict.get (Dict.set d k v) k = Some v.
Proof.
  induction d as [|[k' v'] d IH]; simpl.
  - now rewrite String.eqb_refl.
  - destruct (String.eqb_spec k' k) as [->|Hne]; simpl.
    + now rewrite String.eqb_refl.
    + apply String.eqb_neq in Hne. now rewrite Hne.
Qed.

Lemma get_set_ne {V} (d : dict V) (k k0 : string) (v : V) :
  k <> k0 -> Dict.get (Dict.set d k v) k0 = Dict.get d k0.
Proof.
  intros Hne. induction d as [|[k' v'] d IH]; simpl.
  - apply String.eqb_neq in Hne. now rewrite Hne.
  - destruct (String.eqb_spec k' k) as [->|Hne']; simpl.
    + apply String.eqb_neq in Hne. now rewrite Hne.
    + now rewrite IH.
Qed.

Lemma keys_set {V} (d : dict V) (k : string) (v : V) :
  Dict.keys (Dict.set d k v) =
  if Dict.mem k d then Dict.keys d else Dict.keys d ++ [k].
Proof.
  unfold Dict.mem, Dict.keys.
  induction d as [|[k' v'] d IH]; cbn [Dict.set map fst existsb]; [reflexivity|].
  rewrite (String.eqb_sym k k').
  destruct (String.eqb k' k); cbn [map fst orb]; [reflexivity|].
  rewrite IH. now destruct (existsb (String.eqb k) (map fst d)).
Qed.

(** A key of the overrides gets the overriding value. *)
Lemma get_update_Some {V} (d other : dict V) (k : string) (v : V) :
  Dict.wf other -> Dict.get other k = Some v ->
  Dict.get (Dict.update d other) k = Some v.
Proof.
  unfold Dict.update, Dict.wf. revert d.
  induction other as [|[k' v'] other IH]; intros d Hwf Hget; [discriminate|].
  simpl in *. apply NoDup_cons in Hwf as [Hnotin Hwf]. rewrite list_elem_of_In in Hnotin.
  destruct (String.eqb_spec k' k) as [->|Hne].
  - injection Hget as ->. clear IH.
    assert (Hk : Dict.get (Dict.set d k v) k = Some v) by apply get_set_eq.
    revert Hk Hnotin. generalize (Dict.set d k v). clear Hwf.
    induction other as [|[k1 v1] other IH]; intros d' Hk Hnotin; simpl; [exact Hk|].
    apply IH.
    + rewrite get_set_ne; [exact Hk|]. simpl in Hnotin. intros ->. apply Hnotin. now left.
    + simpl in Hnotin. tauto.
  - now apply IH.
Qed.

(** A key the overrides do not mention keeps what it had. *)
Lemma get_update_None {V} (d other : dict V) (k : string) :
  Dict.get other k = None ->
  Dict.get (Dict.update d other) k = Dict.get d k.
Proof.
  unfold Dict.update. revert d.
  induction other as [|[k' v'] other IH]; intros d Hget; [reflexivity|].
  simpl in *. destruct (String.eqb_spec k' k) as [->|Hne]; [discriminate|].
  rewrite IH by exact Hget. now apply get_set_ne.
Qed.

(** The keys after an update: the old ones where they stood, then the
    new ones in the order of the overrides. *)
Lemma keys_update {V} (d other : dict V) :
  Dict.wf other ->
  Dict.keys (Dict.update d other) =
  Dict.keys d ++ List.filter (fun k => negb (Dict.mem k d)) (Dict.keys other).
Proof.
  unfold Dict.wf. revert d.
  induction other as [|[k v] other IH]; intros d Hwf.
  - cbn. now rewrite app_nil_r.
  - change (Dict.keys ((k, v) :: other)) with (k :: Dict.keys other) in *.
    change (Dict.update d ((k, v) :: other)) with (Dict.update (Dict.set d k v) other).
    apply NoDup_cons in Hwf as [Hnotin Hwf]. rewrite list_elem_of_In in Hnotin.
    rewrite IH by exact Hwf. rewrite keys_set. cbn [List.filter].
    destruct (Dict.mem k d) eqn:Hmem; cbn [negb].
    + f_equal. apply filter_ext_in. intros k0 _. f_equal.
      unfold Dict.mem. rewrite keys_set. fold (Dict.mem k d). now rewrite Hmem.
    + rewrite <- app_assoc. cbn [app]. f_equal. f_equal.
      apply filter_ext_in. intros k0 Hin. f_equal.
      unfold Dict.mem. rewrite keys_set. fold (Dict.mem k d). rewrite Hmem.
      rewrite existsb_app. cbn [existsb]. rewrite !orb_false_r.
      destruct (String.eqb_spec k0 k) as [->|_]; [contradiction|].
      now rewrite orb_false_r.
Qed.

End DictFacts.

(** ** The environment *)

Lemma isabs_cons (s : string) : PosixPath.isabs (String "/" s) = true.
Proof. reflexivity. Qed.

Lemma isabs_inv (s : string) : PosixPath.isabs s = true -> exists s', s = String "/" s'.
Proof.
  unfold PosixPath.isabs. destruct s as [|c s]; cbn [PyStr.startswith].
  - discriminate.
  - destruct (Ascii.eqb_spec "/" c) as [<-|_]; [eauto | discriminate].
Qed.

Lemma getcwd_isabs (w : World) : PosixPath.isabs (getcwd w) = true.
Proof. apply isabs_cons. Qed.

Lemma join_isabs (a b : string) :
  PosixPath.isabs a = true -> PosixPath.isabs (PosixPath.join a b) = true.
Proof.
  intros Ha. unfold PosixPath.join. destruct (PosixPath.isabs b) eqn:Hb; [exact Hb|].
  apply isabs_inv in Ha as [a' ->].
  destruct (_ || _); rewrite append_cons; apply isabs_cons.
Qed.

Lemma initial_slashes_isabs (p : string) :
  PosixPath.isabs p = true ->
  PosixPath.initial_slashes p = 1 \/ PosixPath.initial_slashes p = 2.
Proof.
  unfold PosixPath.isabs, PosixPath.initial_slashes. intros ->.
  destruct (_ && _); auto.
Qed.

Lemma normpath_isabs (p : string) :
  PosixPath.isabs p = true -> PosixPath.isabs (PosixPath.normpath p) = true.
Proof.
  intros Hp. unfold PosixPath.normpath.
  destruct (initial_slashes_isabs p Hp) as [-> | ->];
    apply isabs_inv in Hp as [p' ->];
    cbv zeta iota beta; rewrite !append_cons; cbn [String.eqb];
    apply isabs_cons.
Qed.

(** The stored workspace is an absolute path. *)
Lemma abspath_isabs (w : World) (path : string) :
  PosixPath.isabs (PosixPath.abspath (getcwd w) path) = true.
Proof.
  unfold PosixPath.abspath. apply normpath_isabs.
  destruct (PosixPath.isabs path) eqn:Hp; [exact Hp|].
  apply join_isabs, getcwd_isabs.
Qed.

(** An absolute path names the same place whatever the working
    directory is. *)
Lemma resolve_absolute (w w' : World) (path : string) :
  PosixPath.isabs path = true -> resolve w path = resolve w' path.
Proof. intros Hp. unfold resolve, PosixPath.abspath. now rewrite Hp. Qed.

Lemma stat_put_node (p : list string) (n x : node) (ch : gmap string node) :
  p <> [] -> stat n (removelast p) = Some (Dir ch) -> stat (put_node n p x) p = Some x.
Proof.
  revert n. induction p as [|c p IH]; intros n Hne Hparent; [contradiction|].
  destruct p as [|c' p].
  - cbn in Hparent. injection Hparent as ->. cbn [put_node].
    destruct (ch !! c); cbn [stat]; now rewrite lookup_insert_eq.
  - change (removelast (c :: c' :: p)) with (c :: removelast (c' :: p)) in Hparent.
    cbn [stat] in Hparent. destruct n as [|ch0]; [discriminate|].
    cbn [put_node]. destruct (ch0 !! c) as [n'|] eqn:Hc; [|discriminate].
    cbn [stat]. rewrite lookup_insert_eq. now apply IH.
Qed.

Lemma entry_error_None (w : World) (for_dir : bool) (path : string) (p : list string) :
  entry_error w for_dir path p = None ->
  p <> [] /\ (exists ch, stat (root w) (removelast p) = Some (Dir ch)) /\ open_error w p = None.
Proof.
  unfold entry_error. destruct p as [|c p]; [now destruct for_dir|].
  destruct (stat (root w) (removelast (c :: p))) as [[|ch]|]; try discriminate.
  intros H. split; [discriminate|]. split; [eauto|].
  destruct (stat (root w) (c :: p)) as [[|]|], for_dir; try discriminate;
    destruct (open_error w (c :: p)); congruence.
Qed.

(** Whatever creating an entry raises is an [Exception]. *)
Lemma entry_error_Exception (w : World) (for_dir : bool) (path : string)
    (p : list string) (e : exn) :
  entry_error w for_dir path p = Some e -> isinstance_Exception e = true.
Proof.
  unfold entry_error, os_error. intros H. destruct for_dir, p.
  all: repeat match type of H with
         | (match ?x with _ => _ end) = _ => destruct x
         | (if ?x then _ else _) = _ => destruct x
         end; try discriminate; injection H as <-; reflexivity.
Qed.

Lemma write_file_writable (w : World) (path content : string) :
  writable w path ->
  exists w', write_file path content w = (Returned tt, w') /\
             stat (root w') (resolve w path) = Some (File content) /\
             cwd w' = cwd w.
Proof.
  intros [Hentry Hwrite]. unfold write_file. rewrite Hentry, Hwrite.
  eexists. split; [reflexivity|]. split; [|reflexivity].
  apply entry_error_None in Hentry as (Hne & (ch & Hparent) & _).
  cbn [root set_root]. now apply stat_put_node with ch.
Qed.

Lemma write_file_raises_Exception (w w' : World) (path content : string) (e : exn) :
  write_file path content w = (Raised e, w') -> isinstance_Exception e = true.
Proof.
  unfold write_file.
  destruct (entry_error w false path (resolve w path)) as [e0|] eqn:Hentry.
  - intros H. injection H as <- _. now apply entry_error_Exception in Hentry.
  - destruct (write_error w (resolve w path)) as [[n text]|]; [|discriminate].
    intros H. injection H as <- _. reflexivity.
Qed.

Lemma chdir_returns (w w' : World) (path : string) :
  chdir path w = (Returned tt, w') ->
  w' = set_cwd w (resolve w path) /\ is_dir w (resolve w path).
Proof.
  unfold chdir, is_dir. destruct (stat (root w) (resolve w path)) as [[|ch]|];
    try discriminate.
  destruct (chdir_error w (resolve w path)); [discriminate|].
  intros H. injection H as <-. eauto.
Qed.

Lemma stat_app (n : node) (p q : list string) :
  stat n (p ++ q) = match stat n p with
                    | Some n' => stat n' q
                    | None => None
                    end.
Proof.
  revert n. induction p as [|c p IH]; intros n; [reflexivity|].
  cbn [app stat]. destruct n as [|ch]; [reflexivity|].
  destruct (ch !! c); [apply IH | reflexivity].
Qed.

(** Below a node just put, the tree is that node. *)
Lemma stat_put_node_below (p q : list string) (n x : node) (ch : gmap string node) :
  p <> [] -> stat n (removelast p) = Some (Dir ch) ->
  stat (put_node n p x) (p ++ q) = stat x q.
Proof.
  intros Hne Hparent. rewrite stat_app.
  now rewrite (stat_put_node p n x ch Hne Hparent).
Qed.

Lemma removelast_snoc (p : list string) (c : string) : removelast (p ++ [c]) = p.
Proof. apply removelast_last. Qed.

Lemma entry_error_new_dir (w : World) (path : string) (p : list string)
    (ch : gmap string node) :
  p <> [] ->
  stat (root w) (removelast p) = Some (Dir ch) ->
  stat (root w) p = None ->
  open_error w p = None ->
  entry_error w true path p = None.
Proof.
  intros Hne Hparent Hnone Hopen. destruct p as [|x p]; [contradiction|].
  unfold entry_error. now rewrite Hparent, Hnone, Hopen.
Qed.

Lemma mkdir_at_returns (w : World) (path : string) (pre : list string) (c : string) :
  is_dir w pre ->
  stat (root w) (pre ++ [c]) = None ->
  open_error w (pre ++ [c]) = None ->
  mkdir_at path (pre ++ [c]) w =
  (Returned tt, set_root w (put_node (root w) (pre ++ [c]) (Dir ∅))).
Proof.
  intros [ch Hpre] Hnone Hopen. unfold mkdir_at.
  rewrite (entry_error_new_dir w path (pre ++ [c]) ch); auto.
  - now destruct pre.
  - now rewrite removelast_snoc.
Qed.

(** [makedirs] returns, and leaves a directory, when the system refuses
    nothing and no file stands on the way. *)
Lemma makedirs_from_returns (lead : string) (todo pre : list string) (w : World) :
  todo <> [] ->
  is_dir w pre ->
  stat (root w) (pre ++ todo) = None ->
  (forall q, open_error w q = None) ->
  (forall k s, stat (root w) (pre ++ firstn k todo) <> Some (File s)) ->
  exists w', makedirs_from lead pre todo w = (Returned tt, w') /\
             is_dir w' (pre ++ todo) /\
             cwd w' = cwd w /\
             chdir_error w' = chdir_error w.
Proof.
  revert pre w. induction todo as [|c todo IH]; intros pre w Hne Hpre Hnone Hopen Hfile;
    [contradiction|].
  destruct todo as [|c2 todo].
  - cbn [makedirs_from]. rewrite mkdir_at_returns by auto.
    eexists. split; [reflexivity|]. split; [|split; reflexivity].
    destruct Hpre as [ch Hpre]. exists ∅. cbn [root set_root].
    apply stat_put_node with ch; [now destruct pre|]. now rewrite removelast_snoc.
  - change (makedirs_from lead pre (c :: c2 :: todo))
      with (bind (fun w => match stat (root w) (pre ++ [c]) with
                           | Some _ => ret tt w
                           | None => mkdir_at (lead +:+ PyStr.join "/" (pre ++ [c]))
                                              (pre ++ [c]) w
                           end)
                 (fun _ => makedirs_from lead (pre ++ [c]) (c2 :: todo))).
    unfold bind.
    assert (Hstep : exists w1,
               match stat (root w) (pre ++ [c]) with
               | Some _ => ret tt w
               | None => mkdir_at (lead +:+ PyStr.join "/" (pre ++ [c])) (pre ++ [c]) w
               end = (Returned tt, w1) /\
               is_dir w1 (pre ++ [c]) /\
               stat (root w1) ((pre ++ [c]) ++ c2 :: todo) = None /\
               (forall k s, stat (root w1) ((pre ++ [c]) ++ firstn k (c2 :: todo))
                            <> Some (File s)) /\
               open_error w1 = open_error w /\ cwd w1 = cwd w /\
               chdir_error w1 = chdir_error w).
    { destruct (stat (root w) (pre ++ [c])) as [[s|ch]|] eqn:Hc.
      - exfalso. apply (Hfile 1 s). exact Hc.
      - exists w. split; [reflexivity|]. split; [now exists ch|].
        split; [now rewrite <- app_assoc|]. split; [|auto].
        intros k s. rewrite <- app_assoc. apply (Hfile (S k) s).
      - rewrite mkdir_at_returns by auto.
        destruct Hpre as [ch Hpre].
        assert (Hp : pre ++ [c] <> []) by now destruct pre.
        assert (Hparent : stat (root w) (removelast (pre ++ [c])) = Some (Dir ch))
          by now rewrite removelast_snoc.
        eexists. split; [reflexivity|]. cbn [root set_root open_error cwd chdir_error].
        split; [exists ∅; now apply stat_put_node with ch|].
        split; [now rewrite (stat_put_node_below _ _ _ _ ch Hp Hparent)|].
        split; [|auto].
        intros k s. rewrite (stat_put_node_below _ _ _ _ ch Hp Hparent).
        destruct k; [discriminate | cbn; now rewrite lookup_empty]. }
    destruct Hstep as (w1 & -> & Hdir1 & Hnone1 & Hfile1 & Hopen1 & Hcwd1 & Hcd1).
    assert (Hopen' : forall q, open_error w1 q = None)
      by (intros q; now rewrite Hopen1).
    destruct (IH (pre ++ [c]) w1 ltac:(discriminate) Hdir1 Hnone1 Hopen' Hfile1)
      as (w' & Hmk & Hdir' & Hcwd' & Hcd').
    exists w'. rewrite Hmk. split; [reflexivity|].
    split; [now rewrite <- app_assoc in Hdir' | split; congruence].
Qed.

(** ** The reader *)

Module ReaderFacts.

Import MdpReader.

Lemma contains_append (c : ascii) (a b : string) :
  PyStr.contains c (a +:+ b) = PyStr.contains c a || PyStr.contains c b.
Proof.
  induction a as [|x a IH]; [reflexivity|].
  rewrite append_cons. cbn [PyStr.contains]. now rewrite IH, orb_assoc.
Qed.

Lemma contains_spaces (c : ascii) (n : nat) :
  c <> " "%char -> PyStr.contains c (PyStr.spaces n) = false.
Proof.
  intros Hc. induction n as [|n IH]; [reflexivity|].
  cbn [PyStr.spaces PyStr.contains]. rewrite IH, orb_false_r.
  apply Ascii.eqb_neq. congruence.
Qed.

Lemma contains_ljust (c : ascii) (n : nat) (k : string) :
  c <> " "%char -> PyStr.contains c (PyStr.ljust n k) = PyStr.contains c k.
Proof.
  intros Hc. unfold PyStr.ljust.
  now rewrite contains_append, contains_spaces, orb_false_r.
Qed.

(** A text without line break, then a line break: the first line. *)
Lemma split_first_line (a rest : string) :
  one_line a ->
  PyStr.split PyStr.newline (a +:+ PyStr.nl +:+ rest) = a :: PyStr.split PyStr.newline rest.
Proof.
  unfold one_line. induction a as [|x a IH]; intros Ha.
  - reflexivity.
  - cbn [PyStr.contains] in Ha. apply orb_false_elim in Ha as [Hx Ha].
    rewrite append_cons. cbn [PyStr.split]. rewrite Hx, (IH Ha). reflexivity.
Qed.

(** The separator is found where the first ["="] of the line is. *)
Lemma split_once_separator (a v : string) :
  PyStr.contains "=" a = false ->
  split_once " = " (a +:+ " = " +:+ v) = Some (a, v).
Proof.
  induction a as [|x a IH]; intros Ha.
  - reflexivity.
  - cbn [PyStr.contains] in Ha. apply orb_false_elim in Ha as [Hx Ha].
    rewrite append_cons. cbn [split_once].
    replace (PyStr.startswith " = " (String x (a +:+ " = " +:+ v))) with false.
    + now rewrite (IH Ha).
    + symmetry. cbn [PyStr.startswith].
      destruct (Ascii.eqb " " x); [cbn [andb] | reflexivity].
      destruct a as [|y a].
      * reflexivity.
      * rewrite append_cons.
        cbn [PyStr.contains] in Ha. apply orb_false_elim in Ha as [Hy _].
        rewrite Ascii.eqb_sym in Hy. now rewrite Hy.
Qed.

Lemma rstrip_spaces (n : nat) : rstrip (PyStr.spaces n) = "".
Proof.
  induction n as [|n IH]; [reflexivity|].
  cbn [PyStr.spaces rstrip]. now rewrite IH.
Qed.

Lemma rstrip_append_spaces (k : string) (n : nat) :
  rstrip (k +:+ PyStr.spaces n) = rstrip k.
Proof.
  induction k as [|x k IH].
  - apply rstrip_spaces.
  - rewrite append_cons. cbn [rstrip]. now rewrite IH.
Qed.

(** A line of the file gives its key and the text of its value
    back. *)
Lemma read_line_item (k v : string) :
  readable_key k ->
  read_line (PyStr.ljust 20 k +:+ " = " +:+ v) = Some (k, v).
Proof.
  intros (Heq & _ & Hsemi & Hstrip). unfold read_line.
  rewrite split_once_separator by (now rewrite contains_ljust).
  unfold PyStr.ljust at 3. rewrite rstrip_append_spaces, Hstrip.
  replace (String.eqb _ "" || _) with false; [reflexivity|].
  symmetry. unfold PyStr.ljust. destruct k as [|x k].
  - reflexivity.
  - rewrite !append_cons. cbn [String.eqb PyStr.startswith orb] in *.
    exact Hsemi.
Qed.

Lemma one_line_item (k v : string) :
  readable_key k -> one_line v -> one_line (PyStr.ljust 20 k +:+ " = " +:+ v).
Proof.
  intros (_ & Hnl & _) Hv. unfold one_line in *.
  rewrite !contains_append, contains_ljust, Hnl, Hv by discriminate. reflexivity.
Qed.

End ReaderFacts.

(** ** The protocol *)

Section ProtocolProperties.

Context {Value : Type}.
Variable py_format : Value -> string.
Variable MDP_TYPES : list string.
Variable DEFAULT_MDP_PARAMS : dict (dict Value).
Variable SimulationStage : list Member.
Context {ShellResult : Type}.
Variable utils_run_shell_command : string -> bool -> bool -> M World ShellResult.

(** *** The stage enumeration *)

Lemma find_member_Some (s : string) (m : Member) :
  find_member SimulationStage s = Some m -> In m SimulationStage /\ name m = s.
Proof.
  unfold find_member. intros H. apply find_some in H as [Hin Heq].
  now apply String.eqb_eq in Heq.
Qed.

Lemma find_member_None (s : string) :
  find_member SimulationStage s = None <-> ~ In s (stage_names SimulationStage).
Proof.
  unfold find_member, stage_names. split.
  - intros H Hin. apply in_map_iff in Hin as (m & Hname & Hin).
    apply (find_none _ _ H) in Hin. rewrite Hname, String.eqb_refl in Hin. discriminate.
  - intros Hnot. destruct (find _ _) as [m|] eqn:Hfind; [|reflexivity].
    apply find_some in Hfind as [Hin Heq]. apply String.eqb_eq in Heq.
    exfalso. apply Hnot. apply in_map_iff. eauto.
Qed.

Lemma find_member_In (s : string) :
  In s (stage_names SimulationStage) -> exists m, find_member SimulationStage s = Some m.
Proof.
  intros Hin. destruct (find_member SimulationStage s) as [m|] eqn:Hfind; [eauto|].
  now apply find_member_None in Hfind.
Qed.

(** *** The constructor *)

(** What a construction that returns went through. *)
Lemma init_returned (workspace_arg : string) (w w' : World) (self : BaseProtocol) :
  __init__ SimulationStage workspace_arg w = (Returned self, w') ->
  let ws := PosixPath.abspath (getcwd w) workspace_arg in
  exists (m : Member) (w1 : World),
    find_member SimulationStage "SETUP" = Some m /\
    self = {| workspace := ws; stage := m |} /\
    (if path_exists w ws then w1 = w else makedirs ws w = (Returned tt, w1)) /\
    is_dir w1 (resolve w1 ws) /\
    w' = add_log (set_cwd w1 (resolve w1 ws))
                 ("Protocol initialized with workspace: " +:+ ws).
Proof.
  unfold __init__, bind, get_st, enum_getattr, ret, raise, logging_info.
  cbv zeta. destruct (find_member SimulationStage "SETUP") as [m|]; [|discriminate].
  set (ws := PosixPath.abspath (getcwd w) workspace_arg).
  destruct (path_exists w ws) eqn:Hex; cbn [negb].
  - destruct (chdir ws w) as [[[]|e] w2] eqn:Hcd; [|discriminate].
    apply chdir_returns in Hcd as [-> Hdir]. intros H. injection H as <- <-.
    exists m, w. auto.
  - destruct (makedirs ws w) as [[[]|e] w1] eqn:Hmk; [|discriminate].
    destruct (chdir ws w1) as [[[]|e] w2] eqn:Hcd; [|discriminate].
    apply chdir_returns in Hcd as [-> Hdir]. intros H. injection H as <- <-.
    exists m, w1. auto.
Qed.

(** The constructor returns when [SETUP] is a member of the
    enumeration, the system refuses nothing and no file stands on the
    way to the workspace. *)
Lemma init_returns (workspace_arg : string) (w : World) (m : Member) :
  find_member SimulationStage "SETUP" = Some m ->
  is_dir w [] ->
  (forall q, open_error w q = None) ->
  chdir_error w (resolve w (PosixPath.abspath (getcwd w) workspace_arg)) = None ->
  (forall k s,
     stat (root w)
          (firstn k (resolve w (PosixPath.abspath (getcwd w) workspace_arg)))
     <> Some (File s)) ->
  exists self w', __init__ SimulationStage workspace_arg w = (Returned self, w').
Proof.
  intros Hfind Hroot Hopen Hcd Hfile.
  unfold __init__, bind, get_st, enum_getattr, ret, raise, logging_info.
  cbv zeta. rewrite Hfind.
  set (ws := PosixPath.abspath (getcwd w) workspace_arg) in *.
  assert (Habs : PosixPath.isabs ws = true) by apply abspath_isabs.
  unfold path_exists.
  destruct (stat (root w) (resolve w ws)) as [[s|ch]|] eqn:Hstat; cbn [negb].
  - exfalso. apply (Hfile (length (resolve w ws)) s). now rewrite firstn_all.
  - unfold chdir. cbv beta zeta. rewrite Hstat, Hcd. eauto.
  - destruct (makedirs_from_returns
                (match PosixPath.initial_slashes ws with 2 => "//" | _ => "/" end)
                (resolve w ws) [] w) as (w1 & Hmk & [ch Hdir] & _ & Hcd1); auto.
    + intros Heq. rewrite Heq in Hstat. discriminate.
    + unfold makedirs. rewrite Hmk. unfold chdir. cbv beta zeta.
      rewrite (resolve_absolute w1 w ws Habs). cbn [app] in Hdir.
      rewrite Hdir, Hcd1, Hcd. eauto.
Qed.


(** C10: right after a construction that returns, the stage of the
    protocol is the member [SETUP] of the stage enumeration. *)
Theorem init_stage_is_setup (workspace_arg : string) (w w' : World) (self : BaseProtocol) :
  __init__ SimulationStage workspace_arg w = (Returned self, w') ->
  find_member SimulationStage "SETUP" = Some (stage self) /\
  In (stage self) SimulationStage /\
  name (stage self) = "SETUP".
Proof.
  intros H. apply init_returned in H as (m & w1 & Hfind & -> & _).
  cbn [stage]. split; [exact Hfind|]. now apply find_member_Some.
Qed.

(** *** The stage setter *)

Lemma set_simulation_stage_known (stage_arg : string) (m : Member)
    (self : BaseProtocol) (w : World) :
  find_member SimulationStage stage_arg = Some m ->
  set_simulation_stage (Value := Value) SimulationStage stage_arg (self, w) =
  (Returned [("success", OBool true); ("stage", OStr (name m));
             ("previous_stage", OStr (name m))],
   ({| workspace := workspace self; stage := m |}, w)).
Proof.
  intros Hfind.
  unfold set_simulation_stage, try_except, bind, enum_getitem, set_self_stage, get_self, ret.
  rewrite Hfind. reflexivity.
Qed.

Lemma set_simulation_stage_unknown (stage_arg : string) (self : BaseProtocol) (w : World) :
  find_member SimulationStage stage_arg = None ->
  set_simulation_stage (Value := Value) SimulationStage stage_arg (self, w) =
  (Returned [("success", OBool false);
             ("error", OStr (unknown_stage_error SimulationStage stage_arg))],
   (self, w)).
Proof.
  intros Hfind.
  unfold set_simulation_stage, try_except, bind, enum_getitem, raise, ret.
  rewrite Hfind. reflexivity.
Qed.

(** C4: a name of the stage enumeration becomes the current stage and
    the result reports success with that name as the stage; any other
    name gives a failure whose message lists every valid stage name
    (as Python prints a list of strings), and leaves the instance, so
    its stage, as it was. *)
Theorem set_simulation_stage_valid_or_rejected (stage_arg : string)
    (self : BaseProtocol) (w : World) :
  (In stage_arg (stage_names SimulationStage) ->
   exists (r : dict (PyObj Value)) (self' : BaseProtocol),
     set_simulation_stage SimulationStage stage_arg (self, w) = (Returned r, (self', w)) /\
     In (stage self') SimulationStage /\
     name (stage self') = stage_arg /\
     workspace self' = workspace self /\
     Dict.get r "success" = Some (OBool true) /\
     Dict.get r "stage" = Some (OStr stage_arg)) /\
  (~ In stage_arg (stage_names SimulationStage) ->
   exists (r : dict (PyObj Value)),
     set_simulation_stage SimulationStage stage_arg (self, w) = (Returned r, (self, w)) /\
     Dict.get r "success" = Some (OBool false) /\
     Dict.get r "error" = Some (OStr (unknown_stage_error SimulationStage stage_arg)) /\
     forall s, In s (stage_names SimulationStage) ->
               PyStr.occurs_in (PyStr.repr s) (unknown_stage_error SimulationStage stage_arg)).
Proof.
  split.
  - intros Hin. apply find_member_In in Hin as [m Hfind].
    pose proof (find_member_Some _ _ Hfind) as [Hmem Hname].
    eexists _, _. split; [apply set_simulation_stage_known, Hfind|].
    cbn [stage workspace]. rewrite Hname. repeat split; auto.
  - intros Hnot. apply find_member_None in Hnot.
    eexists. split; [apply set_simulation_stage_unknown, Hnot|].
    repeat split.
    intros s Hs. unfold unknown_stage_error.
    do 3 apply occurs_in_append_r. now apply occurs_in_repr_list.
Qed.

(** C5: for a valid stage name, whatever the stage was before, the
    field [previous_stage] of the success result is the name of the
    stage just set; it is not the name of the stage that was current
    before the call, unless the two names are the same. *)
Theorem previous_stage_is_new_stage (stage_arg : string) (self : BaseProtocol) (w : World) :
  In stage_arg (stage_names SimulationStage) ->
  exists (r : dict (PyObj Value)) (self' : BaseProtocol),
    set_simulation_stage SimulationStage stage_arg (self, w) = (Returned r, (self', w)) /\
    name (stage self') = stage_arg /\
    Dict.get r "previous_stage" = Some (OStr (name (stage self'))) /\
    (name (stage self) <> stage_arg ->
     Dict.get r "previous_stage" <> Some (OStr (name (stage self)))).
Proof.
  intros Hin. apply find_member_In in Hin as [m Hfind].
  pose proof (find_member_Some _ _ Hfind) as [_ Hname].
  eexists _, _. split; [apply set_simulation_stage_known, Hfind|].
  cbn [stage]. repeat split; auto.
  intros Hne Heq. cbn in Heq. congruence.
Qed.

(** *** The shell delegate *)

Lemma lift_world_self {A} (c : M World A) (self : BaseProtocol) (w : World) :
  fst (snd (lift_world c (self, w))) = self.
Proof. unfold lift_world. cbn [fst snd]. now destruct (c w). Qed.

(** *** The parameter file generator *)

(** The loop builds the header followed by the lines of the items. *)
Lemma mdp_content_lines (mdp_type : string) (mdp_params : dict Value) :
  mdp_content py_format mdp_type mdp_params =
  mdp_header mdp_type +:+ PyStr.concat (map (mdp_line py_format) mdp_params).
Proof.
  unfold mdp_content. generalize (mdp_header mdp_type).
  induction mdp_params as [|kv d IH]; intros acc; cbn [fold_left map PyStr.concat fold_right].
  - now rewrite append_empty_r.
  - rewrite IH. apply append_assoc.
Qed.

Lemma effective_params_overrides (defaults : dict Value) (params : option (dict Value)) :
  effective_params defaults params =
  Dict.update defaults (match params with Some d => d | None => [] end).
Proof. now destruct params as [[|kv d]|]. Qed.

(** The generator on a type of the list whose defaults the
    configuration holds: the outcome of the write decides between the
    two results, and nothing is raised. *)
Lemma create_mdp_file_known (mdp_type : string) (params : option (dict Value))
    (defaults : dict Value) (self : BaseProtocol) (w : World) :
  In mdp_type MDP_TYPES ->
  Dict.get DEFAULT_MDP_PARAMS mdp_type = Some defaults ->
  let mdp_params := effective_params defaults params in
  create_mdp_file py_format MDP_TYPES DEFAULT_MDP_PARAMS mdp_type params (self, w) =
  match write_file (mdp_type +:+ ".mdp") (mdp_content py_format mdp_type mdp_params) w with
  | (Returned _, w') =>
      (Returned [("success", OBool true); ("file_path", OStr (mdp_type +:+ ".mdp"));
                 ("mdp_type", OStr mdp_type); ("params", OParams mdp_params)],
       (self, w'))
  | (Raised e, w') =>
      (Returned [("success", OBool false);
                 ("error", OStr ("Failed to write MDP file: " +:+ exn_str e))],
       (self, w'))
  end.
Proof.
  intros Hin Hget mdp_params. apply list_contains_In in Hin.
  unfold create_mdp_file. rewrite Hin, Hget. cbn [negb].
  unfold bind, try_except, lift_world, ret. cbn [fst snd]. fold mdp_params.
  destruct (write_file _ _ w) as [[[]|e] w'] eqn:Hwrite; [reflexivity|].
  apply write_file_raises_Exception in Hwrite. now rewrite Hwrite.
Qed.

(** C3: a type that is not in the list gives a failure result whose
    message names the type and lists the valid types (as Python
    prints a list of strings); the world is left as it was, so no
    file is created and no write is attempted. *)
Theorem create_mdp_file_unknown_type (mdp_type : string) (params : option (dict Value))
    (self : BaseProtocol) (w : World) :
  ~ In mdp_type MDP_TYPES ->
  exists (r : dict (PyObj Value)),
    create_mdp_file py_format MDP_TYPES DEFAULT_MDP_PARAMS mdp_type params (self, w) =
      (Returned r, (self, w)) /\
    Dict.get r "success" = Some (OBool false) /\
    Dict.get r "error" = Some (OStr (unknown_type_error MDP_TYPES mdp_type)) /\
    PyStr.occurs_in mdp_type (unknown_type_error MDP_TYPES mdp_type) /\
    PyStr.occurs_in (PyStr.repr_list MDP_TYPES) (unknown_type_error MDP_TYPES mdp_type) /\
    forall t, In t MDP_TYPES ->
              PyStr.occurs_in (PyStr.repr t) (unknown_type_error MDP_TYPES mdp_type).
Proof.
  intros Hnot. apply list_contains_not_In in Hnot.
  eexists. split; [unfold create_mdp_file; rewrite Hnot; reflexivity|].
  unfold unknown_type_error. repeat split.
  - apply occurs_in_append_r, occurs_in_append_l, occurs_in_refl.
  - do 3 apply occurs_in_append_r. apply occurs_in_refl.
  - intros t Ht. do 3 apply occurs_in_append_r. now apply occurs_in_repr_list.
Qed.


(** C2: for a type of the list, with its defaults, and any overrides,
    the parameters reported by a successful call are the defaults
    updated by the overrides: an overridden key has the overriding
    value, a key the overrides do not mention has its default value
    (or none), and the keys are those of the defaults in their order
    followed by the new keys of the overrides; the file is written
    from this mapping. *)
Theorem create_mdp_file_overrides (mdp_type : string) (params : option (dict Value))
    (defaults : dict Value) (self : BaseProtocol) (w : World) :
  In mdp_type MDP_TYPES ->
  Dict.get DEFAULT_MDP_PARAMS mdp_type = Some defaults ->
  let overrides := match params with Some d => d | None => [] end in
  Dict.wf overrides ->
  writable w (mdp_type +:+ ".mdp") ->
  exists (r : dict (PyObj Value)) (w' : World) (effective : dict Value),
    create_mdp_file py_format MDP_TYPES DEFAULT_MDP_PARAMS mdp_type params (self, w) =
      (Returned r, (self, w')) /\
    Dict.get r "success" = Some (OBool true) /\
    Dict.get r "params" = Some (OParams effective) /\
    (forall k v, Dict.get overrides k = Some v -> Dict.get effective k = Some v) /\
    (forall k, Dict.get overrides k = None -> Dict.get effective k = Dict.get defaults k) /\
    Dict.keys effective =
      Dict.keys defaults ++
      List.filter (fun k => negb (Dict.mem k defaults)) (Dict.keys overrides) /\
    stat (root w') (resolve w (mdp_type +:+ ".mdp")) =
      Some (File (mdp_content py_format mdp_type effective)).
Proof.
  intros Hin Hget overrides Hwf Hw.
  rewrite (create_mdp_file_known mdp_type params defaults self w Hin Hget).
  rewrite effective_params_overrides. fold overrides.
  destruct (write_file_writable w (mdp_type +:+ ".mdp")
              (mdp_content py_format mdp_type (Dict.update defaults overrides)) Hw)
    as (w' & -> & Hstat & _).
  eexists _, w', _. split; [reflexivity|]. split; [reflexivity|].
  split; [reflexivity|]. split; [|split; [|split]].
  - intros k v Hk. now apply DictFacts.get_update_Some.
  - intros k Hk. now apply DictFacts.get_update_None.
  - now apply DictFacts.keys_update.
  - exact Hstat.
Qed.

(** C7: for a type of the list, with its defaults, when the write of
    the file raises, whatever the exception of the write is, the
    generator returns: its result is a failure whose error message is
    ["Failed to write MDP file: "] followed by the text of that
    exception, so that the exception of the write does not leave the
    function. *)
Theorem create_mdp_file_write_failure (mdp_type : string) (params : option (dict Value))
    (defaults : dict Value) (self : BaseProtocol) (w w' : World) (e : exn) :
  In mdp_type MDP_TYPES ->
  Dict.get DEFAULT_MDP_PARAMS mdp_type = Some defaults ->
  write_file (mdp_type +:+ ".mdp")
             (mdp_content py_format mdp_type (effective_params defaults params)) w =
    (Raised e, w') ->
  exists (r : dict (PyObj Value)),
    create_mdp_file py_format MDP_TYPES DEFAULT_MDP_PARAMS mdp_type params (self, w) =
      (Returned r, (self, w')) /\
    Dict.get r "success" = Some (OBool false) /\
    Dict.get r "error" = Some (OStr ("Failed to write MDP file: " +:+ exn_str e)) /\
    PyStr.occurs_in (exn_str e) ("Failed to write MDP file: " +:+ exn_str e).
Proof.
  intros Hin Hget Hwrite.
  rewrite (create_mdp_file_known mdp_type params defaults self w Hin Hget), Hwrite.
  eexists. split; [reflexivity|]. repeat split.
  apply occurs_in_append_r, occurs_in_refl.
Qed.

(** C9: the generator and the shell delegate leave the instance as it
    was, for every input and every world, whether they return or
    raise: the workspace and the stage are unchanged. *)
Theorem stage_and_workspace_frame (self : BaseProtocol) (w : World) :
  (forall mdp_type params,
     let self' := fst (snd (create_mdp_file py_format MDP_TYPES DEFAULT_MDP_PARAMS
                              mdp_type params (self, w))) in
     stage self' = stage self /\ workspace self' = workspace self) /\
  (forall command capture_output suppress_output,
     let self' := fst (snd (run_shell_command utils_run_shell_command
                              command capture_output suppress_output (self, w))) in
     stage self' = stage self /\ workspace self' = workspace self).
Proof.
  split.
  - intros mdp_type params self'. enough (self' = self) as -> by auto.
    subst self'. unfold create_mdp_file.
    destruct (PyStr.list_contains mdp_type MDP_TYPES); cbn [negb]; [|reflexivity].
    unfold bind, try_except, lift_world, ret, raise. cbn [fst snd].
    destruct (Dict.get DEFAULT_MDP_PARAMS mdp_type) as [defaults|]; [|reflexivity].
    cbv zeta. cbn [fst snd].
    destruct (write_file _ _ w) as [[[]|e] w']; [reflexivity|].
    now destruct (isinstance_Exception e).
  - intros command capture_output suppress_output self'.
    enough (self' = self) as -> by auto.
    subst self'. unfold run_shell_command. apply lift_world_self.
Qed.

(** *** Reading the file back *)

Lemma read_mdp_lines (d : dict Value) :
  (forall kv, In kv d ->
              MdpReader.readable_key (fst kv) /\ MdpReader.one_line (py_format (snd kv))) ->
  MdpReader.read_mdp (PyStr.concat (map (mdp_line py_format) d)) = texts py_format d.
Proof.
  unfold MdpReader.read_mdp.
  induction d as [|[k v] d IH]; intros Hd; [reflexivity|].
  cbn [map PyStr.concat fold_right texts]. fold (PyStr.concat (map (mdp_line py_format) d)).
  destruct (Hd (k, v) (or_introl eq_refl)) as [Hk Hv]. cbn [fst snd] in Hk, Hv.
  replace (mdp_line py_format (k, v) +:+ PyStr.concat (map (mdp_line py_format) d))
    with ((PyStr.ljust 20 k +:+ " = " +:+ py_format v) +:+ PyStr.nl +:+
          PyStr.concat (map (mdp_line py_format) d))
    by (unfold mdp_line; cbn [fst snd]; now rewrite !append_assoc).
  rewrite ReaderFacts.split_first_line by now apply ReaderFacts.one_line_item.
  cbn [MdpReader.read_lines fst snd]. rewrite ReaderFacts.read_line_item by exact Hk.
  f_equal. apply IH. intros kv Hin. apply Hd. now right.
Qed.

Lemma read_mdp_content (mdp_type : string) (d : dict Value) :
  MdpReader.one_line mdp_type ->
  (forall kv, In kv d ->
              MdpReader.readable_key (fst kv) /\ MdpReader.one_line (py_format (snd kv))) ->
  MdpReader.read_mdp (mdp_content py_format mdp_type d) = texts py_format d.
Proof.
  intros Ht Hd. rewrite mdp_content_lines. unfold mdp_header.
  replace (("; " +:+ mdp_type +:+ ".mdp - Generated by GROMACS Copilot" +:+ PyStr.nl) +:+
           PyStr.concat (map (mdp_line py_format) d))
    with (("; " +:+ mdp_type +:+ ".mdp - Generated by GROMACS Copilot") +:+ PyStr.nl +:+
          PyStr.concat (map (mdp_line py_format) d))
    by now rewrite !append_assoc.
  unfold MdpReader.read_mdp. rewrite ReaderFacts.split_first_line.
  - cbn [MdpReader.read_lines].
    replace (MdpReader.read_line _) with (@None (string * string)) by reflexivity.
    now apply read_mdp_lines.
  - unfold MdpReader.one_line in *.
    rewrite !ReaderFacts.contains_append, Ht. reflexivity.
Qed.

(** C6, amended: for a type of the list whose name has no line break,
    when every key of the effective mapping is readable (no ["="], no
    line break, no [";"] in front, no space at the end) and the text
    of every value has no line break, reading the written file back
    gives the keys of the effective mapping, in order, each with the
    text of its value. *)
Theorem mdp_roundtrip_readable (mdp_type : string) (params : option (dict Value))
    (defaults : dict Value) (self : BaseProtocol) (w : World) :
  In mdp_type MDP_TYPES ->
  Dict.get DEFAULT_MDP_PARAMS mdp_type = Some defaults ->
  writable w (mdp_type +:+ ".mdp") ->
  MdpReader.one_line mdp_type ->
  (forall kv, In kv (effective_params defaults params) ->
              MdpReader.readable_key (fst kv) /\ MdpReader.one_line (py_format (snd kv))) ->
  exists (r : dict (PyObj Value)) (w' : World) (effective : dict Value) (content : string),
    create_mdp_file py_format MDP_TYPES DEFAULT_MDP_PARAMS mdp_type params (self, w) =
      (Returned r, (self, w')) /\
    Dict.get r "params" = Some (OParams effective) /\
    stat (root w') (resolve w (mdp_type +:+ ".mdp")) = Some (File content) /\
    MdpReader.read_mdp content = texts py_format effective.
Proof.
  intros Hin Hget Hw Ht Hd.
  rewrite (create_mdp_file_known mdp_type params defaults self w Hin Hget).
  destruct (write_file_writable w (mdp_type +:+ ".mdp")
              (mdp_content py_format mdp_type (effective_params defaults params)) Hw)
    as (w' & -> & Hstat & _).
  eexists _, w', _, _. split; [reflexivity|]. split; [reflexivity|].
  split; [exact Hstat|]. now apply read_mdp_content.
Qed.

End ProtocolProperties.

(** * The concrete setting: runs of the theorems *)

Lemma sample_em_known : In "em" Sample.MDP_TYPES.
Proof. cbn. tauto. Defined.

Lemma sample_em_defaults : Dict.get Sample.DEFAULT_MDP_PARAMS "em" = Some Sample.em_defaults.
Proof. reflexivity. Defined.

Lemma sample_world_writable : writable Sample.world "em.mdp".
Proof. split; reflexivity. Defined.


Lemma sample_overrides_wf : Dict.wf Sample.overrides.
Proof.
  unfold Dict.wf, Dict.keys, Sample.overrides. cbn [map fst].
  apply NoDup_cons. split.
  - rewrite list_elem_of_In. cbn. intros [H|[]]. discriminate H.
  - apply NoDup_cons. split; [rewrite list_elem_of_In; cbn; tauto | apply NoDup_nil_2].
Defined.

Lemma create_mdp_file_overrides_witness :
  In "em" Sample.MDP_TYPES /\
  Dict.get Sample.DEFAULT_MDP_PARAMS "em" = Some Sample.em_defaults /\
  Dict.wf Sample.overrides /\
  writable Sample.world "em.mdp" /\
  exists (r : dict (PyObj PyValue)) (w' : World) (effective : dict PyValue),
    create_mdp_file format_PyValue Sample.MDP_TYPES Sample.DEFAULT_MDP_PARAMS "em"
      (Some Sample.overrides) (Sample.protocol, Sample.world) =
      (Returned r, (Sample.protocol, w')) /\
    Dict.get r "success" = Some (OBool true) /\
    Dict.get r "params" = Some (OParams effective) /\
    (forall k v, Dict.get Sample.overrides k = Some v -> Dict.get effective k = Some v) /\
    (forall k, Dict.get Sample.overrides k = None ->
               Dict.get effective k = Dict.get Sample.em_defaults k) /\
    Dict.keys effective =
      Dict.keys Sample.em_defaults ++
      List.filter (fun k => negb (Dict.mem k Sample.em_defaults)) (Dict.keys Sample.overrides) /\
    stat (root w') (resolve Sample.world "em.mdp") =
      Some (File (mdp_content format_PyValue "em" effective)).
Proof.
  split; [exact sample_em_known|]. split; [exact sample_em_defaults|].
  split; [exact sample_overrides_wf|]. split; [exact sample_world_writable|].
  exact (create_mdp_file_overrides format_PyValue Sample.MDP_TYPES Sample.DEFAULT_MDP_PARAMS
           "em" (Some Sample.overrides) Sample.em_defaults Sample.protocol Sample.world
           sample_em_known sample_em_defaults sample_overrides_wf sample_world_writable).
Defined.

Lemma sample_bogus_unknown : ~ In "bogus" Sample.MDP_TYPES.
Proof. cbn. intros H. repeat (destruct H as [H|H]; [discriminate H|]). exact H. Defined.

Lemma create_mdp_file_unknown_type_witness :
  ~ In "bogus" Sample.MDP_TYPES /\
  exists (r : dict (PyObj PyValue)),
    create_mdp_file format_PyValue Sample.MDP_TYPES Sample.DEFAULT_MDP_PARAMS "bogus" None
      (Sample.protocol, Sample.world) = (Returned r, (Sample.protocol, Sample.world)) /\
    Dict.get r "success" = Some (OBool false) /\
    Dict.get r "error" = Some (OStr (unknown_type_error Sample.MDP_TYPES "bogus")) /\
    PyStr.occurs_in "bogus" (unknown_type_error Sample.MDP_TYPES "bogus") /\
    PyStr.occurs_in (PyStr.repr_list Sample.MDP_TYPES)
                    (unknown_type_error Sample.MDP_TYPES "bogus") /\
    forall t, In t Sample.MDP_TYPES ->
              PyStr.occurs_in (PyStr.repr t) (unknown_type_error Sample.MDP_TYPES "bogus").
Proof.
  split; [exact sample_bogus_unknown|].
  exact (create_mdp_file_unknown_type format_PyValue Sample.MDP_TYPES
           Sample.DEFAULT_MDP_PARAMS "bogus" None Sample.protocol Sample.world
           sample_bogus_unknown).
Defined.

Lemma sample_production_valid : In "PRODUCTION" (stage_names Sample.SimulationStage).
Proof. cbn. tauto. Defined.

Lemma sample_bogus_invalid : ~ In "BOGUS" (stage_names Sample.SimulationStage).
Proof. cbn. intros H. repeat (destruct H as [H|H]; [discriminate H|]). exact H. Defined.

Lemma set_simulation_stage_valid_or_rejected_witness :
  (In "PRODUCTION" (stage_names Sample.SimulationStage) /\
   exists (r : dict (PyObj PyValue)) (self' : BaseProtocol),
     set_simulation_stage Sample.SimulationStage "PRODUCTION" (Sample.protocol, Sample.world) =
       (Returned r, (self', Sample.world)) /\
     In (stage self') Sample.SimulationStage /\
     name (stage self') = "PRODUCTION" /\
     workspace self' = workspace Sample.protocol /\
     Dict.get r "success" = Some (OBool true) /\
     Dict.get r "stage" = Some (OStr "PRODUCTION")) /\
  (~ In "BOGUS" (stage_names Sample.SimulationStage) /\
   exists (r : dict (PyObj PyValue)),
     set_simulation_stage Sample.SimulationStage "BOGUS" (Sample.protocol, Sample.world) =
       (Returned r, (Sample.protocol, Sample.world)) /\
     Dict.get r "success" = Some (OBool false) /\
     Dict.get r "error" = Some (OStr (unknown_stage_error Sample.SimulationStage "BOGUS")) /\
     forall s, In s (stage_names Sample.SimulationStage) ->
               PyStr.occurs_in (PyStr.repr s)
                               (unknown_stage_error Sample.SimulationStage "BOGUS")).
Proof.
  split.
  - split; [exact sample_production_valid|].
    exact (proj1 (set_simulation_stage_valid_or_rejected (Value := PyValue)
                    Sample.SimulationStage "PRODUCTION" Sample.protocol Sample.world)
                 sample_production_valid).
  - split; [exact sample_bogus_invalid|].
    exact (proj2 (set_simulation_stage_valid_or_rejected (Value := PyValue)
                    Sample.SimulationStage "BOGUS" Sample.protocol Sample.world)
                 sample_bogus_invalid).
Defined.

Lemma previous_stage_is_new_stage_witness :
  In "PRODUCTION" (stage_names Sample.SimulationStage) /\
  name (stage Sample.protocol) = "SETUP" /\
  exists (r : dict (PyObj PyValue)) (self' : BaseProtocol),
    set_simulation_stage Sample.SimulationStage "PRODUCTION" (Sample.protocol, Sample.world) =
      (Returned r, (self', Sample.world)) /\
    name (stage self') = "PRODUCTION" /\
    Dict.get r "previous_stage" = Some (OStr (name (stage self'))) /\
    (name (stage Sample.protocol) <> "PRODUCTION" ->
     Dict.get r "previous_stage" <> Some (OStr (name (stage Sample.protocol)))).
Proof.
  split; [exact sample_production_valid|]. split; [reflexivity|].
  exact (previous_stage_is_new_stage (Value := PyValue) Sample.SimulationStage "PRODUCTION"
           Sample.protocol Sample.world sample_production_valid).
Defined.

Lemma sample_em_one_line : MdpReader.one_line "em".
Proof. reflexivity. Defined.

Lemma sample_effective_readable :
  forall kv, In kv (effective_params Sample.em_defaults (Some Sample.overrides)) ->
             MdpReader.readable_key (fst kv) /\
             MdpReader.one_line (format_PyValue (snd kv)).
Proof.
  intros kv Hin. vm_compute in Hin.
  repeat (destruct Hin as [<-|Hin]; [repeat split; reflexivity|]).
  destruct Hin.
Defined.

Lemma mdp_roundtrip_readable_witness :
  In "em" Sample.MDP_TYPES /\
  Dict.get Sample.DEFAULT_MDP_PARAMS "em" = Some Sample.em_defaults /\
  writable Sample.world "em.mdp" /\
  MdpReader.one_line "em" /\
  (forall kv, In kv (effective_params Sample.em_defaults (Some Sample.overrides)) ->
              MdpReader.readable_key (fst kv) /\
              MdpReader.one_line (format_PyValue (snd kv))) /\
  exists (r : dict (PyObj PyValue)) (w' : World) (effective : dict PyValue) (content : string),
    create_mdp_file format_PyValue Sample.MDP_TYPES Sample.DEFAULT_MDP_PARAMS "em"
      (Some Sample.overrides) (Sample.protocol, Sample.world) =
      (Returned r, (Sample.protocol, w')) /\
    Dict.get r "params" = Some (OParams effective) /\
    stat (root w') (resolve Sample.world "em.mdp") = Some (File content) /\
    MdpReader.read_mdp content = texts format_PyValue effective.
Proof.
  split; [exact sample_em_known|]. split; [exact sample_em_defaults|].
  split; [exact sample_world_writable|]. split; [exact sample_em_one_line|].
  split; [exact sample_effective_readable|].
  exact (mdp_roundtrip_readable format_PyValue Sample.MDP_TYPES Sample.DEFAULT_MDP_PARAMS
           "em" (Some Sample.overrides) Sample.em_defaults Sample.protocol Sample.world
           sample_em_known sample_em_defaults sample_world_writable sample_em_one_line
           sample_effective_readable).
Defined.

(** C6 as stated fails: with the override [title] whose value holds a
    line break, the type [em] is written with success, and reading the
    written file back does not give the effective mapping, not even as
    texts: the value of [title] comes back cut at the line break. *)
Lemma mdp_roundtrip_counterexample :
  exists (w' : World) (effective : dict PyValue) (content : string),
    In "em" Sample.MDP_TYPES /\
    create_mdp_file format_PyValue Sample.MDP_TYPES Sample.DEFAULT_MDP_PARAMS "em"
      (Some Sample.two_line_overrides) (Sample.protocol, Sample.world) =
      (Returned [("success", OBool true); ("file_path", OStr "em.mdp");
                 ("mdp_type", OStr "em"); ("params", OParams effective)],
       (Sample.protocol, w')) /\
    stat (root w') (resolve Sample.world "em.mdp") = Some (File content) /\
    Dict.get (texts format_PyValue effective) "title" =
      Some ("first line" +:+ PyStr.nl +:+ "second line") /\
    Dict.get (MdpReader.read_mdp content) "title" = Some "first line" /\
    MdpReader.read_mdp content <> texts format_PyValue effective.
Proof.
  exists (snd (snd (create_mdp_file format_PyValue Sample.MDP_TYPES
                      Sample.DEFAULT_MDP_PARAMS "em" (Some Sample.two_line_overrides)
                      (Sample.protocol, Sample.world)))),
         (effective_params Sample.em_defaults (Some Sample.two_line_overrides)),
         (mdp_content format_PyValue "em"
            (effective_params Sample.em_defaults (Some Sample.two_line_overrides))).
  split; [exact sample_em_known|].
  split; [vm_compute; reflexivity|]. split; [vm_compute; reflexivity|].
  split; [vm_compute; reflexivity|]. split; [vm_compute; reflexivity|].
  vm_compute. discriminate.
Qed.

Lemma create_mdp_file_write_failure_witness :
  In "em" Sample.MDP_TYPES /\
  Dict.get Sample.DEFAULT_MDP_PARAMS "em" = Some Sample.em_defaults /\
  exists (e : exn) (w' : World),
    write_file ("em" +:+ ".mdp")
               (mdp_content format_PyValue "em" (effective_params Sample.em_defaults None))
               Sample.full_disk_world = (Raised e, w') /\
    exn_str e = "[Errno 28] No space left on device" /\
    exists (r : dict (PyObj PyValue)),
      create_mdp_file format_PyValue Sample.MDP_TYPES Sample.DEFAULT_MDP_PARAMS "em" None
        (Sample.protocol, Sample.full_disk_world) = (Returned r, (Sample.protocol, w')) /\
      Dict.get r "success" = Some (OBool false) /\
      Dict.get r "error" = Some (OStr ("Failed to write MDP file: " +:+ exn_str e)) /\
      PyStr.occurs_in (exn_str e) ("Failed to write MDP file: " +:+ exn_str e).
Proof.
  split; [exact sample_em_known|]. split; [exact sample_em_defaults|].
  exists (Exn OSError "[Errno 28] No space left on device"),
         (snd (write_file "em.mdp"
                 (mdp_content format_PyValue "em" (effective_params Sample.em_defaults None))
                 Sample.full_disk_world)).
  split; [vm_compute; reflexivity|]. split; [reflexivity|].
  apply (create_mdp_file_write_failure format_PyValue Sample.MDP_TYPES
           Sample.DEFAULT_MDP_PARAMS "em" None Sample.em_defaults Sample.protocol
           Sample.full_disk_world _ _ sample_em_known sample_em_defaults).
  vm_compute. reflexivity.
Defined.


Lemma init_stage_is_setup_witness :
  exists (self : BaseProtocol) (w' : World),
    __init__ Sample.SimulationStage "/etc" Sample.world = (Returned self, w') /\
    find_member Sample.SimulationStage "SETUP" = Some (stage self) /\
    In (stage self) Sample.SimulationStage /\
    name (stage self) = "SETUP".
Proof.
  exists {| workspace := "/etc"; stage := {| name := "SETUP"; value := 1 |} |},
         (snd (__init__ Sample.SimulationStage "/etc" Sample.world)).
  split; [vm_compute; reflexivity|].
  apply (init_stage_is_setup Sample.SimulationStage "/etc" Sample.world
           (snd (__init__ Sample.SimulationStage "/etc" Sample.world))).
  vm_compute. reflexivity.
Defined.

(** * Further properties *)

(** ** The tree *)

(** Putting a node where no directory stands keeps every other file. *)
Lemma put_node_keeps_files (p q : list string) (n x : node) (s : string) :
  q <> p ->
  (forall ch, stat n p <> Some (Dir ch)) ->
  stat n q = Some (File s) ->
  stat (put_node n p x) q = Some (File s).
Proof.
  revert n q. induction p as [|c p IH]; intros n q Hne Hp Hq.
  - destruct q as [|c2 q]; [contradiction|].
    destruct n as [s0|ch]; [discriminate Hq|]. exfalso. now apply (Hp ch).
  - destruct n as [s0|ch]; [exact Hq|]. cbn [put_node].
    destruct q as [|c2 q]; [discriminate Hq|]. cbn [stat] in Hq, Hp.
    destruct (decide (c2 = c)) as [->|Hc].
    + destruct (ch !! c) as [n'|] eqn:Hch; [|discriminate Hq].
      cbn [stat]. rewrite lookup_insert_eq. apply IH; auto. congruence.
    + destruct (ch !! c) as [n'|] eqn:Hch.
      * cbn [stat]. now rewrite lookup_insert_ne.
      * destruct p; cbn [stat]; [now rewrite lookup_insert_ne | exact Hq].
Qed.

(** ... and every directory stays a directory. *)
Lemma put_node_keeps_dirs (p q : list string) (n x : node) (chq : gmap string node) :
  (forall ch, stat n p <> Some (Dir ch)) ->
  stat n q = Some (Dir chq) ->
  exists ch', stat (put_node n p x) q = Some (Dir ch').
Proof.
  revert n q. induction p as [|c p IH]; intros n q Hp Hq.
  - destruct n as [s0|ch]; [|exfalso; now apply (Hp ch)].
    destruct q; discriminate Hq.
  - destruct n as [s0|ch]; [eauto|]. cbn [put_node].
    destruct q as [|c2 q].
    + destruct (ch !! c); [eauto | destruct p; eauto].
    + cbn [stat] in Hq, Hp. destruct (decide (c2 = c)) as [->|Hc].
      * destruct (ch !! c) as [n'|] eqn:Hch; [|discriminate Hq].
        cbn [stat]. rewrite lookup_insert_eq. now apply IH.
      * destruct (ch !! c) as [n'|] eqn:Hch.
        -- cbn [stat]. rewrite lookup_insert_ne by auto. eauto.
        -- destruct p; cbn [stat]; [rewrite lookup_insert_ne by auto|]; eauto.
Qed.

Lemma entry_error_file_not_dir (w : World) (path : string) (p : list string) :
  entry_error w false path p = None -> forall ch, stat (root w) p <> Some (Dir ch).
Proof.
  unfold entry_error. destruct p as [|c p]; intros H ch Hdir; [discriminate H|].
  destruct (stat (root w) (removelast (c :: p))) as [[|]|]; try discriminate H.
  rewrite Hdir in H. discriminate H.
Qed.

Lemma entry_error_dir_absent (w : World) (path : string) (p : list string) :
  entry_error w true path p = None -> stat (root w) p = None.
Proof.
  unfold entry_error. destruct p as [|c p]; intros H; [discriminate H|].
  destruct (stat (root w) (removelast (c :: p))) as [[|]|]; try discriminate H.
  destruct (stat (root w) (c :: p)) as [[|]|]; [discriminate H.. | reflexivity].
Qed.

Lemma keeps_refl (w : World) (target : option (list string)) : keeps w w target.
Proof. unfold keeps. repeat split; auto. Qed.

Lemma keeps_trans (w w1 w2 : World) (target : option (list string)) :
  keeps w w1 target -> keeps w1 w2 target -> keeps w w2 target.
Proof.
  intros (Hc1 & Hl1 & Ho1 & Hw1 & Hx1 & Hf1 & Hd1) (Hc2 & Hl2 & Ho2 & Hw2 & Hx2 & Hf2 & Hd2).
  unfold keeps. repeat split; try congruence; auto.
Qed.

Lemma keeps_weaken (w w' : World) (target : option (list string)) :
  keeps w w' None -> keeps w w' target.
Proof.
  intros (Hc & Hl & Ho & Hw & Hx & Hf & Hd). unfold keeps. repeat split; auto.
Qed.

Lemma put_node_keeps (w : World) (p : list string) (x : node) :
  (forall ch, stat (root w) p <> Some (Dir ch)) ->
  keeps w (set_root w (put_node (root w) p x)) (Some p).
Proof.
  intros Hp. unfold keeps, is_dir.
  cbn [cwd log open_error write_error chdir_error root set_root].
  repeat split.
  - intros q s Hq Hs. apply put_node_keeps_files; auto. congruence.
  - intros q [ch Hq]. now apply put_node_keeps_dirs with ch.
Qed.

(** Writing a file, with whatever outcome, keeps the rest of the
    world. *)
Lemma write_file_keeps (path content : string) (w w' : World) (o : Outcome unit) :
  write_file path content w = (o, w') -> keeps w w' (Some (resolve w path)).
Proof.
  unfold write_file.
  destruct (entry_error w false path (resolve w path)) as [e|] eqn:Hentry.
  - intros H. injection H as _ <-. apply keeps_refl.
  - pose proof (entry_error_file_not_dir _ _ _ Hentry) as Hp.
    destruct (write_error w (resolve w path)) as [[n text]|];
      intros H; injection H as _ <-; now apply put_node_keeps.
Qed.

Lemma mkdir_at_keeps (path : string) (p : list string) (w w' : World) (o : Outcome unit) :
  mkdir_at path p w = (o, w') -> keeps w w' None.
Proof.
  unfold mkdir_at. destruct (entry_error w true path p) as [e|] eqn:Hentry;
    intros H; injection H as _ <-; [apply keeps_refl|].
  apply entry_error_dir_absent in Hentry.
  destruct (put_node_keeps w p (Dir ∅)) as (Hc & Hl & Ho & Hw & Hx & Hf & Hd);
    [intros ch; congruence|].
  unfold keeps. repeat split; auto.
  intros q s _ Hs. apply Hf; [|exact Hs]. congruence.
Qed.

(** A new empty directory at a free place brings no file into the
    tree. *)
Lemma put_dir_no_new_file (p q : list string) (n : node) (s : string) :
  stat n p = None ->
  stat (put_node n p (Dir ∅)) q = Some (File s) ->
  stat n q = Some (File s).
Proof.
  revert n q. induction p as [|c p IH]; intros n q Hp Hq; [discriminate Hp|].
  destruct n as [s0|ch]; [exact Hq|]. cbn [put_node] in Hq. cbn [stat] in Hp.
  destruct (ch !! c) as [n'|] eqn:Hch.
  - destruct q as [|c2 q]; [discriminate Hq|]. cbn [stat] in Hq |- *.
    destruct (decide (c2 = c)) as [->|Hc].
    + rewrite lookup_insert_eq in Hq. rewrite Hch. now apply IH.
    + now rewrite lookup_insert_ne in Hq by auto.
  - destruct p as [|c3 p]; [|exact Hq].
    destruct q as [|c2 q]; [discriminate Hq|]. cbn [stat] in Hq |- *.
    destruct (decide (c2 = c)) as [->|Hc].
    + rewrite lookup_insert_eq in Hq. destruct q; [discriminate Hq|].
      cbn [stat] in Hq. rewrite lookup_empty in Hq. discriminate Hq.
    + now rewrite lookup_insert_ne in Hq by auto.
Qed.

Lemma mkdir_at_no_new_file (path : string) (p q : list string) (w w' : World)
    (o : Outcome unit) (s : string) :
  mkdir_at path p w = (o, w') ->
  stat (root w') q = Some (File s) -> stat (root w) q = Some (File s).
Proof.
  unfold mkdir_at. destruct (entry_error w true path p) as [e|] eqn:Hentry;
    intros H; injection H as _ <-; [auto|].
  apply entry_error_dir_absent in Hentry. cbn [root set_root].
  now apply put_dir_no_new_file.
Qed.

Lemma makedirs_from_step (lead : string) (pre : list string) (c c2 : string)
    (todo : list string) :
  makedirs_from lead pre (c :: c2 :: todo) =
  bind (fun w => match stat (root w) (pre ++ [c]) with
                 | Some _ => ret tt w
                 | None => mkdir_at (lead +:+ PyStr.join "/" (pre ++ [c])) (pre ++ [c]) w
                 end)
       (fun _ => makedirs_from lead (pre ++ [c]) (c2 :: todo)).
Proof. reflexivity. Qed.

Lemma makedirs_from_keeps (lead : string) (todo pre : list string) (w w' : World)
    (o : Outcome unit) :
  makedirs_from lead pre todo w = (o, w') -> keeps w w' None.
Proof.
  revert pre w. induction todo as [|c todo IH]; intros pre w.
  - apply mkdir_at_keeps.
  - destruct todo as [|c2 todo]; [apply mkdir_at_keeps|].
    rewrite makedirs_from_step. unfold bind.
    destruct (stat (root w) (pre ++ [c])).
    + unfold ret. apply IH.
    + destruct (mkdir_at _ (pre ++ [c]) w) as [[[]|e] w1] eqn:Hmk; intros H.
      * apply keeps_trans with w1; [now apply mkdir_at_keeps in Hmk | now apply IH in H].
      * injection H as _ <-. now apply mkdir_at_keeps in Hmk.
Qed.

Lemma makedirs_from_no_new_file (lead : string) (todo pre q : list string) (w w' : World)
    (o : Outcome unit) (s : string) :
  makedirs_from lead pre todo w = (o, w') ->
  stat (root w') q = Some (File s) -> stat (root w) q = Some (File s).
Proof.
  revert pre w. induction todo as [|c todo IH]; intros pre w.
  - apply mkdir_at_no_new_file.
  - destruct todo as [|c2 todo]; [apply mkdir_at_no_new_file|].
    rewrite makedirs_from_step. unfold bind.
    destruct (stat (root w) (pre ++ [c])).
    + unfold ret. apply IH.
    + destruct (mkdir_at _ (pre ++ [c]) w) as [[[]|e] w1] eqn:Hmk; intros H Hq.
      * apply (mkdir_at_no_new_file _ _ _ _ _ _ _ Hmk). now apply (IH _ _ H).
      * injection H as _ <-. now apply (mkdir_at_no_new_file _ _ _ _ _ _ _ Hmk).
Qed.

(** After a write that returned, the same path can be written again. *)
Lemma writable_after_write (path content : string) (w w' : World) :
  write_file path content w = (Returned tt, w') -> writable w path /\ writable w' path.
Proof.
  intros Hwrite. pose proof (write_file_keeps _ _ _ _ _ Hwrite) as (Hc & _ & Ho & Hw & _ & _ & Hd).
  unfold write_file in Hwrite.
  destruct (entry_error w false path (resolve w path)) as [e|] eqn:Hentry; [discriminate|].
  destruct (write_error w (resolve w path)) as [[n text]|] eqn:Hwe; [discriminate|].
  injection Hwrite as Hw'.
  split; [now split|].
  assert (Hres : resolve w' path = resolve w path)
    by (unfold resolve, getcwd; now rewrite Hc).
  destruct (entry_error_None _ _ _ _ Hentry) as (Hne & (ch & Hparent) & Hopen).
  unfold writable. rewrite Hres, Hw, Hwe. split; [|reflexivity].
  destruct (Hd (removelast (resolve w path))) as [ch' Hparent']; [now exists ch|].
  assert (Hstat : stat (root w') (resolve w path) = Some (File content)).
  { rewrite <- Hw'. cbn [root set_root]. now apply stat_put_node with ch. }
  unfold entry_error. destruct (resolve w path) as [|c p]; [contradiction|].
  now rewrite Hparent', Hstat, Ho, Hopen.
Qed.

(** After a write that returned, the file holds the whole text. *)
Lemma write_file_returned (path content : string) (w w' : World) :
  write_file path content w = (Returned tt, w') ->
  stat (root w') (resolve w path) = Some (File content).
Proof.
  intros Hwrite. pose proof (writable_after_write _ _ _ _ Hwrite) as [Hw _].
  destruct (write_file_writable w path content Hw) as (w2 & Hwrite2 & Hstat & _).
  congruence.
Qed.

(** ** More on the protocol *)

Section ProtocolExtras.

Context {Value : Type}.
Variable py_format : Value -> string.
Variable MDP_TYPES : list string.
Variable DEFAULT_MDP_PARAMS : dict (dict Value).
Variable SimulationStage : list Member.
Context {ShellResult : Type}.
Variable utils_run_shell_command : string -> bool -> bool -> M World ShellResult.

(** *** The parameter file generator *)

(** The three ways through [create_mdp_file]. *)
Lemma create_mdp_file_cases (mdp_type : string) (params : option (dict Value))
    (self : BaseProtocol) (w : World) :
  create_mdp_file py_format MDP_TYPES DEFAULT_MDP_PARAMS mdp_type params (self, w) =
  if PyStr.list_contains mdp_type MDP_TYPES then
    match Dict.get DEFAULT_MDP_PARAMS mdp_type with
    | None => (Raised (Exn KeyError (PyStr.repr mdp_type)), (self, w))
    | Some defaults =>
        match write_file (mdp_type +:+ ".mdp")
                (mdp_content py_format mdp_type (effective_params defaults params)) w with
        | (Returned _, w') =>
            (Returned (mdp_success mdp_type (effective_params defaults params)), (self, w'))
        | (Raised e, w') =>
            (Returned [("success", OBool false);
                       ("error", OStr ("Failed to write MDP file: " +:+ exn_str e))],
             (self, w'))
        end
    end
  else
    (Returned [("success", OBool false);
               ("error", OStr (unknown_type_error MDP_TYPES mdp_type))],
     (self, w)).
Proof.
  destruct (PyStr.list_contains mdp_type MDP_TYPES) eqn:Hin.
  - destruct (Dict.get DEFAULT_MDP_PARAMS mdp_type) as [defaults|] eqn:Hget.
    + apply list_contains_In in Hin.
      now rewrite (create_mdp_file_known py_format MDP_TYPES DEFAULT_MDP_PARAMS
                     mdp_type params defaults self w Hin Hget).
    + unfold create_mdp_file. rewrite Hin, Hget. reflexivity.
  - unfold create_mdp_file. rewrite Hin. reflexivity.
Qed.

(** X1: the lookup of the defaults is not guarded.  When the type is
    in the list and the configuration has no defaults for it,
    [DEFAULT_MDP_PARAMS[mdp_type]] raises [KeyError] before the [try],
    and the exception leaves [create_mdp_file]: no result is returned,
    nothing is written, and neither the instance nor the world has
    changed. *)
Theorem create_mdp_file_missing_defaults (mdp_type : string) (params : option (dict Value))
    (self : BaseProtocol) (w : World) :
  In mdp_type MDP_TYPES ->
  Dict.get DEFAULT_MDP_PARAMS mdp_type = None ->
  create_mdp_file py_format MDP_TYPES DEFAULT_MDP_PARAMS mdp_type params (self, w) =
    (Raised (Exn KeyError (PyStr.repr mdp_type)), (self, w)).
Proof.
  intros Hin Hget. rewrite create_mdp_file_cases.
  apply list_contains_In in Hin. now rewrite Hin, Hget.
Qed.

(** X2: the success flag can be trusted.  Whatever the input and the
    world, a result with [success] true means that the type is in the
    list, that the result reports the defaults updated by the
    overrides, and that the file [<type>.mdp] now holds the whole text
    made from them; the instance is the same. *)
Theorem create_mdp_file_success_sound (mdp_type : string) (params : option (dict Value))
    (self : BaseProtocol) (w : World) (r : dict (PyObj Value)) (s' : BaseProtocol * World) :
  create_mdp_file py_format MDP_TYPES DEFAULT_MDP_PARAMS mdp_type params (self, w) =
    (Returned r, s') ->
  Dict.get r "success" = Some (OBool true) ->
  exists defaults,
    In mdp_type MDP_TYPES /\
    Dict.get DEFAULT_MDP_PARAMS mdp_type = Some defaults /\
    r = mdp_success mdp_type (effective_params defaults params) /\
    fst s' = self /\
    stat (root (snd s')) (resolve w (mdp_type +:+ ".mdp")) =
      Some (File (mdp_content py_format mdp_type (effective_params defaults params))).
Proof.
  rewrite create_mdp_file_cases.
  destruct (PyStr.list_contains mdp_type MDP_TYPES) eqn:Hin.
  - apply list_contains_In in Hin.
    destruct (Dict.get DEFAULT_MDP_PARAMS mdp_type) as [defaults|]; [|discriminate].
    destruct (write_file _ _ w) as [[[]|e0] w'] eqn:Hwrite;
      intros H Hok; injection H as <- <-; [|discriminate Hok].
    exists defaults. repeat split; auto. cbn [snd].
    now apply write_file_returned in Hwrite.
  - intros H Hok. injection H as <- <-. discriminate Hok.
Qed.

(** X3: what [create_mdp_file] leaves alone.  Whatever the input and
    the outcome, the working directory of the process and the log are
    the same afterwards, and every directory is still a directory. *)
Theorem create_mdp_file_frame (mdp_type : string) (params : option (dict Value))
    (self : BaseProtocol) (w : World) :
  let w' := snd (snd (create_mdp_file py_format MDP_TYPES DEFAULT_MDP_PARAMS
                        mdp_type params (self, w))) in
  cwd w' = cwd w /\ log w' = log w /\ (forall q, is_dir w q -> is_dir w' q).
Proof.
  intros w'.
  assert (H : keeps w w' (Some (resolve w (mdp_type +:+ ".mdp")))).
  { subst w'. rewrite create_mdp_file_cases.
    destruct (PyStr.list_contains mdp_type MDP_TYPES); [|apply keeps_refl].
    destruct (Dict.get DEFAULT_MDP_PARAMS mdp_type) as [defaults|]; [|apply keeps_refl].
    destruct (write_file _ _ w) as [[[]|e0] w1] eqn:Hwrite;
      now apply write_file_keeps in Hwrite. }
  destruct H as (Hc & Hl & _ & _ & _ & _ & Hd). repeat split; auto.
Qed.


(** *** The constructor *)

(** The ways through the constructor. *)
Lemma init_cases (workspace_arg : string) (w : World) :
  let ws := PosixPath.abspath (getcwd w) workspace_arg in
  __init__ SimulationStage workspace_arg w =
  match find_member SimulationStage "SETUP" with
  | None => (Raised (Exn AttributeError "SETUP"), w)
  | Some m =>
      match (if path_exists w ws then (Returned tt, w) else makedirs ws w) with
      | (Raised e, w1) => (Raised e, w1)
      | (Returned _, w1) =>
          match chdir ws w1 with
          | (Raised e, w2) => (Raised e, w2)
          | (Returned _, w2) =>
              (Returned {| workspace := ws; stage := m |},
               add_log w2 ("Protocol initialized with workspace: " +:+ ws))
          end
      end
  end.
Proof.
  intros ws. unfold __init__, bind, get_st, enum_getattr, ret, raise, logging_info.
  cbv zeta. fold ws. destruct (find_member SimulationStage "SETUP") as [m|]; [|reflexivity].
  destruct (path_exists w ws); cbn [negb].
  - destruct (chdir ws w) as [[[]|e] w2]; reflexivity.
  - destruct (makedirs ws w) as [[[]|e] w1]; [|reflexivity].
    destruct (chdir ws w1) as [[[]|e] w2]; reflexivity.
Qed.



Lemma init_makedirs_keeps (ws : string) (w w1 : World) (o : Outcome unit) :
  (if path_exists w ws then (Returned tt, w) else makedirs ws w) = (o, w1) ->
  keeps w w1 None.
Proof.
  destruct (path_exists w ws).
  - intros H. injection H as _ <-. apply keeps_refl.
  - unfold makedirs. apply makedirs_from_keeps.
Qed.

Lemma init_makedirs_no_new_file (ws : string) (w w1 : World) (o : Outcome unit)
    (q : list string) (s : string) :
  (if path_exists w ws then (Returned tt, w) else makedirs ws w) = (o, w1) ->
  stat (root w1) q = Some (File s) -> stat (root w) q = Some (File s).
Proof.
  destruct (path_exists w ws).
  - intros H. injection H as _ <-. auto.
  - unfold makedirs. apply makedirs_from_no_new_file.
Qed.

Lemma chdir_keeps_tree (ws : string) (w w' : World) (o : Outcome unit) :
  chdir ws w = (o, w') ->
  root w' = root w /\ log w' = log w /\
  match o with Raised _ => cwd w' = cwd w | Returned _ => True end.
Proof.
  unfold chdir. destruct (stat (root w) (resolve w ws)) as [[|]|];
    [|destruct (chdir_error w (resolve w ws))|];
    intros H; injection H as <- <-; repeat split.
Qed.

(** X9: the constructor destroys nothing and can only add directories.
    Whether it returns or raises, every file of the tree holds what it
    held, every directory is still a directory, and every file of the
    tree afterwards was that file before: what is new is a
    directory. *)
Theorem init_keeps_tree (workspace_arg : string) (w : World) :
  let w' := snd (__init__ SimulationStage workspace_arg w) in
  (forall q s, stat (root w) q = Some (File s) -> stat (root w') q = Some (File s)) /\
  (forall q, is_dir w q -> is_dir w' q) /\
  (forall q s, stat (root w') q = Some (File s) -> stat (root w) q = Some (File s)) /\
  (forall q x, stat (root w) q = None -> stat (root w') q = Some x -> exists ch, x = Dir ch).
Proof.
  intros w'.
  assert (H : (forall q s, stat (root w) q = Some (File s) ->
                           stat (root w') q = Some (File s)) /\
              (forall q, is_dir w q -> is_dir w' q) /\
              (forall q s, stat (root w') q = Some (File s) ->
                           stat (root w) q = Some (File s))).
  { subst w'. rewrite init_cases. cbv zeta.
    destruct (find_member SimulationStage "SETUP") as [m|]; [|now repeat split].
    destruct (if path_exists w _ then _ else _) as [[[]|e] w1] eqn:Hmk;
      pose proof (fun q s => init_makedirs_no_new_file _ _ _ _ q s Hmk) as Hn;
      apply init_makedirs_keeps in Hmk as (_ & _ & _ & _ & _ & Hf & Hd); cbn [snd].
    - destruct (chdir _ w1) as [o w2] eqn:Hcd.
      apply chdir_keeps_tree in Hcd as (Hroot & _ & _).
      assert (Hroot2 : root (snd (match o with
                                  | Returned _ =>
                                      (Returned {| workspace := PosixPath.abspath (getcwd w)
                                                                  workspace_arg;
                                                   stage := m |},
                                       add_log w2 ("Protocol initialized with workspace: " +:+
                                                   PosixPath.abspath (getcwd w) workspace_arg))
                                  | Raised e => (Raised e, w2)
                                  end)) = root w1)
        by (destruct o; exact Hroot).
      unfold is_dir in *. rewrite Hroot2. split; [|split].
      + intros q s Hq. apply Hf; [discriminate | exact Hq].
      + exact Hd.
      + exact Hn.
    - split; [|split; [exact Hd | exact Hn]].
      intros q s Hq. apply Hf; [discriminate | exact Hq]. }
  destruct H as (Hf & Hd & Hn). repeat split; auto.
  intros q x Hq Hq'. destruct x as [s|ch]; [|now exists ch].
  apply Hn in Hq'. congruence.
Qed.


(** *** The stage *)

(** X11: the stage of an instance is always a member of the
    enumeration.  If it is one before a call of [set_simulation_stage],
    [create_mdp_file] or [run_shell_command], it is one after the call,
    whatever the arguments and the outcome. *)
Theorem stage_stays_member (self : BaseProtocol) (w : World) :
  In (stage self) SimulationStage ->
  (forall stage_arg,
     In (stage (fst (snd (set_simulation_stage (Value := Value) SimulationStage
                            stage_arg (self, w))))) SimulationStage) /\
  (forall mdp_type params,
     In (stage (fst (snd (create_mdp_file py_format MDP_TYPES DEFAULT_MDP_PARAMS
                            mdp_type params (self, w))))) SimulationStage) /\
  (forall command capture_output suppress_output,
     In (stage (fst (snd (run_shell_command utils_run_shell_command
                            command capture_output suppress_output (self, w)))))
        SimulationStage).
Proof.
  intros Hin. split; [|split].
  - intros stage_arg. destruct (find_member SimulationStage stage_arg) as [m|] eqn:Hfind.
    + rewrite (set_simulation_stage_known SimulationStage stage_arg m self w Hfind).
      cbn [fst snd stage]. now apply find_member_Some in Hfind.
    + now rewrite (set_simulation_stage_unknown SimulationStage stage_arg self w Hfind).
  - intros mdp_type params. rewrite create_mdp_file_cases.
    destruct (PyStr.list_contains mdp_type MDP_TYPES); [|exact Hin].
    destruct (Dict.get DEFAULT_MDP_PARAMS mdp_type); [|exact Hin].
    now destruct (write_file _ _ w) as [[[]|e] w'].
  - intros command capture_output suppress_output.
    unfold run_shell_command. now rewrite lift_world_self.
Qed.

Lemma find_member_of_name (m : Member) :
  NoDup (stage_names SimulationStage) ->
  In m SimulationStage ->
  find_member SimulationStage (name m) = Some m.
Proof.
  unfold find_member, stage_names.
  induction SimulationStage as [|m0 l IH]; intros Hnd Hin; [destruct Hin|].
  cbn [map] in Hnd. apply NoDup_cons in Hnd as [Hnotin Hnd].
  cbn [find]. destruct Hin as [->|Hin].
  - now rewrite String.eqb_refl.
  - destruct (String.eqb_spec (name m0) (name m)) as [Heq|_]; [|now apply IH].
    exfalso. apply Hnotin. rewrite Heq, list_elem_of_In. now apply in_map.
Qed.

(** X12: the name of a stage leads back to the stage.  When the names
    of the enumeration are all different, setting the stage to the name
    of any member makes that very member the stage; so setting the
    current stage again changes nothing in the instance. *)
Theorem set_simulation_stage_by_name (m : Member) (self : BaseProtocol) (w : World) :
  NoDup (stage_names SimulationStage) ->
  In m SimulationStage ->
  (exists r,
     set_simulation_stage (Value := Value) SimulationStage (name m) (self, w) =
       (Returned r, ({| workspace := workspace self; stage := m |}, w))) /\
  (m = stage self ->
   fst (snd (set_simulation_stage (Value := Value) SimulationStage (name m) (self, w))) = self).
Proof.
  intros Hnd Hin. pose proof (find_member_of_name m Hnd Hin) as Hfind.
  rewrite (set_simulation_stage_known SimulationStage (name m) m self w Hfind).
  split; [eauto|]. intros ->. now destruct self.
Qed.

End ProtocolExtras.

(** ** Paths *)

Module PathFacts.

Import PosixPath.

Lemma length_append (a b : string) :
  String.length (a +:+ b) = String.length a + String.length b.
Proof.
  induction a as [|x a IH]; [reflexivity|].
  rewrite append_cons. cbn [String.length]. now rewrite IH.
Qed.

Lemma get_snoc (a : string) (c : ascii) :
  String.get (String.length a) (a +:+ String c "") = Some c.
Proof.
  induction a as [|x a IH]; [reflexivity|].
  rewrite append_cons. cbn [String.length String.get]. exact IH.
Qed.

Lemma endswith_slash_snoc (a : string) (c : ascii) :
  endswith_slash (a +:+ String c "") = Ascii.eqb c slash.
Proof.
  unfold endswith_slash. rewrite length_append. cbn [String.length].
  replace (String.length a + 1) with (S (String.length a)) by lia.
  now rewrite get_snoc.
Qed.

Lemma string_snoc (x : string) : x <> "" -> exists a c, x = a +:+ String c "".
Proof.
  induction x as [|c x IH]; intros Hne; [contradiction|].
  destruct x as [|d x].
  - exists "", c. reflexivity.
  - destruct IH as (a & e & Ha); [discriminate|]. exists (String c a), e.
    now rewrite append_cons, <- Ha.
Qed.

Lemma entry_name_inv (s : string) :
  entry_name s = true ->
  s <> "" /\ String.eqb s "." = false /\ String.eqb s ".." = false /\
  PyStr.contains slash s = false.
Proof.
  unfold entry_name. intros H.
  apply andb_prop in H as [H Hslash]. apply andb_prop in H as [H Hdd].
  apply andb_prop in H as [He Hd].
  apply negb_true_iff in He, Hd, Hdd, Hslash. repeat split; auto.
  intros ->. discriminate He.
Qed.

Lemma entry_name_head (s : string) :
  entry_name s = true -> exists c s', s = String c s' /\ Ascii.eqb "/" c = false.
Proof.
  intros H. apply entry_name_inv in H as (Hne & _ & _ & Hslash).
  destruct s as [|c s']; [contradiction|]. exists c, s'. split; [reflexivity|].
  cbn [PyStr.contains] in Hslash. apply orb_false_elim in Hslash as [Hc _].
  now rewrite Ascii.eqb_sym.
Qed.

Lemma entry_name_relative (s : string) : entry_name s = true -> isabs s = false.
Proof.
  intros H. apply entry_name_head in H as (c & s' & -> & Hc).
  unfold isabs. cbn [PyStr.startswith]. now rewrite Hc.
Qed.

(** Splitting at a character. *)
Lemma split_first (c : ascii) (a rest : string) :
  PyStr.contains c a = false ->
  PyStr.split c (a +:+ String c rest) = a :: PyStr.split c rest.
Proof.
  induction a as [|x a IH]; intros Ha.
  - rewrite append_empty_l. cbn [PyStr.split]. now rewrite Ascii.eqb_refl.
  - cbn [PyStr.contains] in Ha. apply orb_false_elim in Ha as [Hx Ha].
    rewrite append_cons. cbn [PyStr.split]. now rewrite Hx, (IH Ha).
Qed.

Lemma split_none (c : ascii) (s : string) :
  PyStr.contains c s = false -> PyStr.split c s = [s].
Proof.
  induction s as [|x s IH]; intros Hs; [reflexivity|].
  cbn [PyStr.contains] in Hs. apply orb_false_elim in Hs as [Hx Hs].
  cbn [PyStr.split]. now rewrite Hx, (IH Hs).
Qed.

Lemma split_parts (c : ascii) (s : string) :
  Forall (fun x => PyStr.contains c x = false) (PyStr.split c s).
Proof.
  induction s as [|x s IH]; [repeat constructor|].
  cbn [PyStr.split]. destruct (Ascii.eqb x c) eqn:Hx.
  - constructor; [reflexivity | exact IH].
  - destruct (PyStr.split c s) as [|h t]; [repeat constructor; cbn; now rewrite Hx|].
    apply Forall_cons in IH as [Hh Ht]. constructor; [|exact Ht].
    cbn [PyStr.contains]. now rewrite Hx, Hh.
Qed.

Lemma join_cons2 (sep x y : string) (l : list string) :
  PyStr.join sep (x :: y :: l) = x +:+ sep +:+ PyStr.join sep (y :: l).
Proof. reflexivity. Qed.

Lemma join_snoc (sep x : string) (l : list string) :
  l <> [] -> PyStr.join sep (l ++ [x]) = PyStr.join sep l +:+ sep +:+ x.
Proof.
  induction l as [|y l IH]; intros Hne; [contradiction|].
  destruct l as [|z l]; [reflexivity|].
  change ((y :: z :: l) ++ [x]) with (y :: z :: (l ++ [x])).
  rewrite !join_cons2. change (z :: l ++ [x]) with ((z :: l) ++ [x]).
  rewrite IH by discriminate. now rewrite !append_assoc.
Qed.

(** The round trip of joining entry names with slashes and splitting
    at the slashes. *)
Lemma split_join (l : list string) :
  l <> [] -> entry_path l -> PyStr.split slash (PyStr.join "/" l) = l.
Proof.
  induction l as [|x l IH]; intros Hne Hl; [contradiction|].
  apply Forall_cons in Hl as [Hx Hl]. apply entry_name_inv in Hx as (_ & _ & _ & Hx).
  destruct l as [|y l].
  - now apply split_none.
  - rewrite join_cons2. change ("/" +:+ PyStr.join "/" (y :: l))
      with (String slash (PyStr.join "/" (y :: l))).
    rewrite split_first by exact Hx. f_equal. apply IH; [discriminate | exact Hl].
Qed.

Lemma norm_step_entry (i : nat) (stack : list string) (comp : string) :
  entry_name comp = true -> norm_step i stack comp = comp :: stack.
Proof.
  intros H. apply entry_name_inv in H as (Hne & Hd & Hdd & _).
  unfold norm_step. apply String.eqb_neq in Hne. now rewrite Hne, Hd, Hdd.
Qed.

Lemma fold_norm_step_entries (i : nat) (l stack : list string) :
  entry_path l -> fold_left (norm_step i) l stack = rev l ++ stack.
Proof.
  revert stack. induction l as [|x l IH]; intros stack Hl; [reflexivity|].
  apply Forall_cons in Hl as [Hx Hl]. cbn [fold_left rev].
  rewrite norm_step_entry by exact Hx. rewrite IH by exact Hl.
  now rewrite <- app_assoc.
Qed.

Lemma join_entries_head (l : list string) :
  entry_path l -> PyStr.startswith "/" (PyStr.join "/" l) = false.
Proof.
  intros Hl. destruct l as [|x l]; [reflexivity|].
  apply Forall_cons in Hl as [Hx _].
  apply entry_name_head in Hx as (c & s' & -> & Hc).
  destruct l as [|y l]; [|rewrite join_cons2, append_cons];
    cbn [PyStr.join PyStr.startswith]; now rewrite Hc.
Qed.

Lemma initial_slashes_single (x : string) :
  PyStr.startswith "/" x = false -> initial_slashes (String "/" x) = 1.
Proof.
  intros H. unfold initial_slashes. destruct x as [|b x]; [reflexivity|].
  cbn [PyStr.startswith] in *. rewrite andb_true_r in H.
  rewrite Ascii.eqb_refl, H. reflexivity.
Qed.

Lemma initial_slashes_render (p : list string) :
  entry_path p -> initial_slashes (render p) = 1.
Proof.
  intros Hp. unfold render.
  change ("/" +:+ PyStr.join "/" p) with (String "/" (PyStr.join "/" p)).
  now apply initial_slashes_single, join_entries_head.
Qed.

(** The absolute name of a place leads back to the place. *)
Lemma norm_components_render (p : list string) :
  entry_path p -> norm_components (render p) = p.
Proof.
  intros Hp. unfold norm_components. rewrite initial_slashes_render by exact Hp.
  unfold render. change ("/" +:+ PyStr.join "/" p) with (String slash (PyStr.join "/" p)).
  cbn [PyStr.split]. rewrite Ascii.eqb_refl.
  destruct p as [|x p]; [reflexivity|].
  rewrite split_join by (discriminate || exact Hp).
  set (l := x :: p) in *. cbn [fold_left].
  change (norm_step 1 [] "") with (@nil string).
  rewrite fold_norm_step_entries by exact Hp. rewrite app_nil_r. apply rev_involutive.
Qed.

Lemma normpath_render (p : list string) :
  entry_path p -> normpath (render p) = render p.
Proof.
  intros Hp. unfold normpath.
  rewrite norm_components_render, initial_slashes_render by exact Hp.
  unfold render. change ("/" +:+ PyStr.join "/" p) with (String "/" (PyStr.join "/" p)).
  reflexivity.
Qed.

Lemma join_last_char (p : list string) :
  p <> [] -> entry_path p ->
  exists a c, PyStr.join "/" p = a +:+ String c "" /\ Ascii.eqb c slash = false.
Proof.
  induction p as [|x p IH]; intros Hne Hp; [contradiction|].
  apply Forall_cons in Hp as [Hx Hp]. destruct p as [|y p].
  - apply entry_name_inv in Hx as (Hxne & _ & _ & Hslash).
    destruct (string_snoc x Hxne) as (a & c & ->). exists a, c. split; [reflexivity|].
    rewrite ReaderFacts.contains_append in Hslash.
    apply orb_false_elim in Hslash as [_ Hc]. cbn [PyStr.contains] in Hc.
    now apply orb_false_elim in Hc as [Hc _].
  - destruct IH as (a & c & Ha & Hc); [discriminate | exact Hp|].
    exists (x +:+ "/" +:+ a), c. split; [|exact Hc].
    rewrite join_cons2, Ha. now rewrite !append_assoc.
Qed.

(** Joining the name of a place and an entry name. *)
Lemma join_render (p : list string) (entry : string) :
  entry_path p -> entry_name entry = true ->
  join (render p) entry = render (p ++ [entry]).
Proof.
  intros Hp He. unfold join. rewrite (entry_name_relative entry He).
  destruct p as [|x p]; [reflexivity|].
  destruct (join_last_char (x :: p)) as (a & c & Ha & Hc); [discriminate | exact Hp|].
  unfold render at 1 2. rewrite Ha.
  change ("/" +:+ a +:+ String c "") with (String "/" a +:+ String c "").
  rewrite endswith_slash_snoc, Hc. cbn [String.eqb orb].
  unfold render. rewrite join_snoc by discriminate. rewrite Ha.
  now rewrite !append_assoc.
Qed.

(** An entry name is looked up in the working directory. *)
Lemma resolve_entry (w : World) (entry : string) :
  entry_path (cwd w) -> entry_name entry = true ->
  resolve w entry = cwd w ++ [entry].
Proof.
  intros Hp He.
  assert (Hpe : entry_path (cwd w ++ [entry]))
    by (apply Forall_app; split; [exact Hp | repeat constructor; exact He]).
  unfold resolve, abspath. rewrite (entry_name_relative entry He).
  change (getcwd w) with (render (cwd w)).
  rewrite join_render, normpath_render by assumption.
  now apply norm_components_render.
Qed.

Lemma resolve_getcwd (w : World) :
  entry_path (cwd w) -> resolve w (getcwd w) = cwd w.
Proof.
  intros Hp. unfold resolve, abspath. rewrite getcwd_isabs.
  change (getcwd w) with (render (cwd w)).
  rewrite normpath_render by exact Hp. now apply norm_components_render.
Qed.

(** The components of an absolute path are entry names. *)
Lemma norm_step_keeps_entries (i : nat) (stack : list string) (comp : string) :
  i <> 0 -> PyStr.contains slash comp = false -> entry_path stack ->
  entry_path (norm_step i stack comp).
Proof.
  intros Hi Hc Hs. unfold norm_step.
  destruct (String.eqb comp "") eqn:He; [exact Hs|].
  destruct (String.eqb comp ".") eqn:Hd; [exact Hs|]. cbn [orb].
  destruct (String.eqb comp "..") eqn:Hdd; cbn [negb orb].
  - apply Nat.eqb_neq in Hi. rewrite Hi. cbn [andb orb].
    destruct stack as [|top stack]; [exact Hs|].
    apply Forall_cons in Hs as [Htop Hs].
    apply entry_name_inv in Htop as (_ & _ & Htop & _). now rewrite Htop.
  - constructor; [|exact Hs]. unfold entry_name. now rewrite He, Hd, Hdd, Hc.
Qed.

Lemma norm_components_entries (path : string) :
  isabs path = true -> entry_path (norm_components path).
Proof.
  intros Habs. unfold norm_components.
  assert (Hi : initial_slashes path <> 0)
    by (destruct (initial_slashes_isabs path Habs) as [-> | ->]; discriminate).
  apply Forall_rev.
  assert (H : forall comps stack,
             Forall (fun x => PyStr.contains slash x = false) comps ->
             entry_path stack ->
             entry_path (fold_left (norm_step (initial_slashes path)) comps stack)).
  { induction comps as [|comp comps IH]; intros stack Hc Hs; [exact Hs|].
    apply Forall_cons in Hc as [Hcomp Hc]. cbn [fold_left].
    apply IH; [exact Hc|]. now apply norm_step_keeps_entries. }
  apply H; [apply split_parts | constructor].
Qed.

End PathFacts.

Lemma mdp_file_entry_name (mdp_type : string) :
  PyStr.contains PosixPath.slash mdp_type = false ->
  entry_name (mdp_type +:+ ".mdp") = true.
Proof.
  intros Hslash. unfold entry_name.
  rewrite ReaderFacts.contains_append, Hslash.
  assert (Hlen : 4 <= String.length (mdp_type +:+ ".mdp"))
    by (rewrite PathFacts.length_append; cbn [String.length]; lia).
  destruct (String.eqb_spec (mdp_type +:+ ".mdp") "") as [Heq|_];
    [rewrite Heq in Hlen; cbn in Hlen; lia|].
  destruct (String.eqb_spec (mdp_type +:+ ".mdp") ".") as [Heq|_];
    [rewrite Heq in Hlen; cbn in Hlen; lia|].
  destruct (String.eqb_spec (mdp_type +:+ ".mdp") "..") as [Heq|_];
    [rewrite Heq in Hlen; cbn in Hlen; lia|].
  reflexivity.
Qed.

(** A plain text is printed between single quotes, as it is. *)
Lemma repr_plain (s : string) :
  plain_text s = true -> PyStr.repr s = String PyStr.squote (s +:+ String PyStr.squote "").
Proof.
  intros Hs.
  assert (Hq : PyStr.contains PyStr.squote s = false).
  { induction s as [|c s IH]; [reflexivity|].
    cbn [plain_text] in Hs. apply andb_prop in Hs as [Hc Hs].
    cbn [PyStr.contains]. rewrite (IH Hs), orb_false_r.
    unfold plain_char in Hc. apply andb_prop in Hc as [Hc _].
    apply andb_prop in Hc as [_ Hc]. now apply negb_true_iff in Hc. }
  unfold PyStr.repr. rewrite Hq. cbn [andb]. rewrite append_cons. f_equal. f_equal.
  clear Hq. induction s as [|c s IH]; [reflexivity|].
  cbn [plain_text] in Hs. apply andb_prop in Hs as [Hc Hs].
  cbn [PyStr.repr_body]. rewrite (IH Hs).
  replace (PyStr.repr_char PyStr.squote c) with (String c ""); [reflexivity|].
  unfold plain_char in Hc. cbv zeta in Hc.
  apply andb_prop in Hc as [Hc Hb]. apply andb_prop in Hc as [Hc Hsq].
  apply andb_prop in Hc as [Hlo Hhi].
  apply negb_true_iff in Hb, Hsq. apply Nat.leb_le in Hlo. apply Nat.ltb_lt in Hhi.
  unfold PyStr.repr_char. cbv zeta. rewrite Hsq, Hb. cbn [orb].
  destruct (Nat.eqb_spec (nat_of_ascii c) 9); [lia|].
  destruct (Nat.eqb_spec (nat_of_ascii c) 10); [lia|].
  destruct (Nat.eqb_spec (nat_of_ascii c) 13); [lia|].
  destruct (Nat.ltb_spec (nat_of_ascii c) 32); [lia|].
  destruct (Nat.eqb_spec (nat_of_ascii c) 127); [lia|]. reflexivity.
Qed.

Lemma occurs_in_repr_list_plain (x : string) (l : list string) :
  In x l -> plain_text x = true ->
  PyStr.occurs_in (String PyStr.squote (x +:+ String PyStr.squote "")) (PyStr.repr_list l).
Proof.
  intros Hin Hx. rewrite <- (repr_plain x Hx). now apply occurs_in_repr_list.
Qed.

Section ProtocolPaths.

Context {Value : Type}.
Variable py_format : Value -> string.
Variable MDP_TYPES : list string.
Variable DEFAULT_MDP_PARAMS : dict (dict Value).
Variable SimulationStage : list Member.

(** X13: after a construction that returns, the working directory is
    the workspace, its components are entry names, [os.getcwd()] names
    it, and an entry name given to a file operation is looked up in
    the workspace. *)
Theorem init_names_resolve_in_workspace (workspace_arg : string) (w w' : World)
    (self : BaseProtocol) :
  __init__ SimulationStage workspace_arg w = (Returned self, w') ->
  entry_path (cwd w') /\
  resolve w' (getcwd w') = cwd w' /\
  forall entry, entry_name entry = true ->
                resolve w' entry = resolve w' (workspace self) ++ [entry].
Proof.
  intros H. apply init_returned in H as (m & w1 & _ & -> & _ & _ & ->).
  cbn [workspace].
  pose proof (abspath_isabs w workspace_arg) as Habs.
  set (ws := PosixPath.abspath (getcwd w) workspace_arg) in *.
  set (w' := add_log _ _).
  assert (Hcwd : cwd w' = resolve w' ws)
    by (cbn [cwd w' add_log set_cwd]; now apply resolve_absolute).
  assert (Hp : entry_path (cwd w')).
  { rewrite Hcwd. unfold resolve. apply PathFacts.norm_components_entries, abspath_isabs. }
  split; [exact Hp|]. split; [now apply PathFacts.resolve_getcwd|].
  intros entry He. rewrite <- Hcwd. now apply PathFacts.resolve_entry.
Qed.

(** X14: the parameter file lands in the workspace.  After a
    construction that returns, [create_mdp_file] for a type of the list
    whose name has no slash writes, when the file can be written, the
    entry [<type>.mdp] of the workspace directory. *)
Theorem create_mdp_file_in_workspace (workspace_arg mdp_type : string)
    (params : option (dict Value)) (defaults : dict Value)
    (w w1 : World) (self : BaseProtocol) :
  __init__ SimulationStage workspace_arg w = (Returned self, w1) ->
  In mdp_type MDP_TYPES ->
  Dict.get DEFAULT_MDP_PARAMS mdp_type = Some defaults ->
  PyStr.contains PosixPath.slash mdp_type = false ->
  writable w1 (mdp_type +:+ ".mdp") ->
  exists (w2 : World),
    create_mdp_file py_format MDP_TYPES DEFAULT_MDP_PARAMS mdp_type params (self, w1) =
      (Returned (mdp_success mdp_type (effective_params defaults params)), (self, w2)) /\
    is_dir w2 (resolve w1 (workspace self)) /\
    stat (root w2) (resolve w1 (workspace self) ++ [mdp_type +:+ ".mdp"]) =
      Some (File (mdp_content py_format mdp_type (effective_params defaults params))).
Proof.
  intros Hinit Hin Hget Hslash Hw.
  apply init_returned in Hinit as (m & w0 & _ & -> & _ & Hdir & ->).
  cbn [workspace] in *.
  pose proof (abspath_isabs w workspace_arg) as Habs.
  set (ws := PosixPath.abspath (getcwd w) workspace_arg) in *.
  set (w1 := add_log _ _) in *.
  assert (Hcwd : cwd w1 = resolve w1 ws)
    by (cbn [cwd w1 add_log set_cwd]; now apply resolve_absolute).
  assert (Hp : entry_path (cwd w1)).
  { rewrite Hcwd. unfold resolve. apply PathFacts.norm_components_entries, abspath_isabs. }
  assert (Hres : resolve w1 (mdp_type +:+ ".mdp") = resolve w1 ws ++ [mdp_type +:+ ".mdp"]).
  { rewrite <- Hcwd. apply PathFacts.resolve_entry; [exact Hp|].
    now apply mdp_file_entry_name. }
  destruct (write_file_writable w1 _ (mdp_content py_format mdp_type
              (effective_params defaults params)) Hw) as (w2 & Hwrite & Hstat & _).
  exists w2. rewrite (create_mdp_file_known py_format MDP_TYPES DEFAULT_MDP_PARAMS
                        mdp_type params defaults _ w1 Hin Hget).
  rewrite Hwrite. split; [reflexivity|]. rewrite <- Hres. split; [|exact Hstat].
  apply write_file_keeps in Hwrite as (_ & _ & _ & _ & _ & _ & Hd). apply Hd.
  rewrite (resolve_absolute w1 w0 ws Habs). exact Hdir.
Qed.

(** X15: the error messages show the valid names between single
    quotes.  A stage name, or a type of the list, made of printable
    ASCII characters without single quote or backslash, stands in the
    message of the failure as ['name']. *)
Theorem error_messages_quote_names (wrong : string) :
  (forall s, In s (stage_names SimulationStage) -> plain_text s = true ->
             PyStr.occurs_in (String PyStr.squote (s +:+ String PyStr.squote ""))
                             (unknown_stage_error SimulationStage wrong)) /\
  (forall t, In t MDP_TYPES -> plain_text t = true ->
             PyStr.occurs_in (String PyStr.squote (t +:+ String PyStr.squote ""))
                             (unknown_type_error MDP_TYPES wrong)).
Proof.
  split.
  - intros s Hin Hs. unfold unknown_stage_error.
    do 3 apply occurs_in_append_r. now apply occurs_in_repr_list_plain.
  - intros t Hin Ht. unfold unknown_type_error.
    do 3 apply occurs_in_append_r. now apply occurs_in_repr_list_plain.
Qed.

End ProtocolPaths.

(** * The concrete setting: runs of the further properties *)




Lemma incomplete_em_known : In "em" Incomplete.MDP_TYPES.
Proof. cbn. tauto. Defined.

Lemma incomplete_em_missing : Dict.get Incomplete.DEFAULT_MDP_PARAMS "em" = None.
Proof. reflexivity. Defined.

Lemma create_mdp_file_missing_defaults_witness :
  In "em" Incomplete.MDP_TYPES /\
  Dict.get Incomplete.DEFAULT_MDP_PARAMS "em" = None /\
  create_mdp_file format_PyValue Incomplete.MDP_TYPES Incomplete.DEFAULT_MDP_PARAMS "em"
    (Some Sample.overrides) (Sample.protocol, Sample.world) =
  (Raised (Exn KeyError (PyStr.repr "em")), (Sample.protocol, Sample.world)).
Proof.
  split; [exact incomplete_em_known|]. split; [exact incomplete_em_missing|].
  exact (create_mdp_file_missing_defaults format_PyValue Incomplete.MDP_TYPES
           Incomplete.DEFAULT_MDP_PARAMS "em" (Some Sample.overrides) Sample.protocol
           Sample.world incomplete_em_known incomplete_em_missing).
Defined.

Lemma create_mdp_file_success_sound_witness :
  exists (r : dict (PyObj PyValue)) (s' : BaseProtocol * World),
    create_mdp_file format_PyValue Sample.MDP_TYPES Sample.DEFAULT_MDP_PARAMS "em"
      (Some Sample.overrides) (Sample.protocol, Sample.world) = (Returned r, s') /\
    Dict.get r "success" = Some (OBool true) /\
    exists defaults,
      In "em" Sample.MDP_TYPES /\
      Dict.get Sample.DEFAULT_MDP_PARAMS "em" = Some defaults /\
      r = mdp_success "em" (effective_params defaults (Some Sample.overrides)) /\
      fst s' = Sample.protocol /\
      stat (root (snd s')) (resolve Sample.world ("em" +:+ ".mdp")) =
        Some (File (mdp_content format_PyValue "em"
                      (effective_params defaults (Some Sample.overrides)))).
Proof.
  exists (mdp_success "em" (effective_params Sample.em_defaults (Some Sample.overrides))),
         (snd (create_mdp_file format_PyValue Sample.MDP_TYPES Sample.DEFAULT_MDP_PARAMS "em"
                 (Some Sample.overrides) (Sample.protocol, Sample.world))).
  assert (Hrun : create_mdp_file format_PyValue Sample.MDP_TYPES Sample.DEFAULT_MDP_PARAMS
                   "em" (Some Sample.overrides) (Sample.protocol, Sample.world) =
                 (Returned (mdp_success "em"
                              (effective_params Sample.em_defaults (Some Sample.overrides))),
                  snd (create_mdp_file format_PyValue Sample.MDP_TYPES
                         Sample.DEFAULT_MDP_PARAMS "em" (Some Sample.overrides)
                         (Sample.protocol, Sample.world))))
    by (vm_compute; reflexivity).
  split; [exact Hrun|]. split; [reflexivity|].
  exact (create_mdp_file_success_sound format_PyValue Sample.MDP_TYPES
           Sample.DEFAULT_MDP_PARAMS "em" (Some Sample.overrides) Sample.protocol
           Sample.world _ _ Hrun eq_refl).
Defined.







Lemma sample_init_returns :
  __init__ Sample.SimulationStage default_workspace Sample.world =
  (Returned {| workspace := "/home/user/md_workspace";
               stage := {| name := "SETUP"; value := 1 |} |},
   snd (__init__ Sample.SimulationStage default_workspace Sample.world)).
Proof. vm_compute. reflexivity. Defined.


Lemma sample_stage_member : In (stage Sample.protocol) Sample.SimulationStage.
Proof. cbn. tauto. Defined.

Lemma stage_stays_member_witness :
  In (stage Sample.protocol) Sample.SimulationStage /\
  In (stage (fst (snd (set_simulation_stage (Value := PyValue) Sample.SimulationStage
                         "PRODUCTION" (Sample.protocol, Sample.world)))))
     Sample.SimulationStage /\
  In (stage (fst (snd (set_simulation_stage (Value := PyValue) Sample.SimulationStage
                         "BOGUS" (Sample.protocol, Sample.world)))))
     Sample.SimulationStage.
Proof.
  split; [exact sample_stage_member|].
  pose proof (stage_stays_member format_PyValue Sample.MDP_TYPES Sample.DEFAULT_MDP_PARAMS
                Sample.SimulationStage (fun (c : string) (_ _ : bool) => ret c)
                Sample.protocol Sample.world sample_stage_member) as (Hset & _ & _).
  split; apply Hset.
Defined.

Lemma sample_stage_names_nodup : NoDup (stage_names Sample.SimulationStage).
Proof.
  apply NoDup_ListNoDup.
  repeat (constructor; [cbn; intros H; repeat (destruct H as [H|H]; [discriminate H|]); exact H|]).
  constructor.
Defined.

Lemma sample_production_member :
  In {| name := "PRODUCTION"; value := 4 |} Sample.SimulationStage.
Proof. cbn. tauto. Defined.

Lemma set_simulation_stage_by_name_witness :
  NoDup (stage_names Sample.SimulationStage) /\
  In {| name := "PRODUCTION"; value := 4 |} Sample.SimulationStage /\
  exists (r : dict (PyObj PyValue)),
    set_simulation_stage Sample.SimulationStage "PRODUCTION" (Sample.protocol, Sample.world) =
      (Returned r, ({| workspace := workspace Sample.protocol;
                       stage := {| name := "PRODUCTION"; value := 4 |} |}, Sample.world)).
Proof.
  split; [exact sample_stage_names_nodup|]. split; [exact sample_production_member|].
  exact (proj1 (set_simulation_stage_by_name (Value := PyValue) Sample.SimulationStage
                  {| name := "PRODUCTION"; value := 4 |} Sample.protocol Sample.world
                  sample_stage_names_nodup sample_production_member)).
Defined.

Lemma init_names_resolve_in_workspace_witness :
  exists (self : BaseProtocol) (w' : World),
    __init__ Sample.SimulationStage default_workspace Sample.world = (Returned self, w') /\
    cwd w' = ["home"; "user"; "md_workspace"] /\
    entry_path (cwd w') /\
    resolve w' (getcwd w') = cwd w' /\
    forall entry, entry_name entry = true ->
                  resolve w' entry = resolve w' (workspace self) ++ [entry].
Proof.
  eexists _, _. split; [exact sample_init_returns|]. split; [reflexivity|].
  exact (init_names_resolve_in_workspace Sample.SimulationStage default_workspace
           Sample.world _ _ sample_init_returns).
Defined.

Lemma sample_workspace_writable :
  writable (snd (__init__ Sample.SimulationStage default_workspace Sample.world))
           ("em" +:+ ".mdp").
Proof. split; vm_compute; reflexivity. Defined.

Lemma sample_em_no_slash : PyStr.contains PosixPath.slash "em" = false.
Proof. reflexivity. Defined.

Lemma create_mdp_file_in_workspace_witness :
  exists (self : BaseProtocol) (w1 w2 : World),
    __init__ Sample.SimulationStage default_workspace Sample.world = (Returned self, w1) /\
    resolve w1 (workspace self) = ["home"; "user"; "md_workspace"] /\
    create_mdp_file format_PyValue Sample.MDP_TYPES Sample.DEFAULT_MDP_PARAMS "em" None
      (self, w1) =
      (Returned (mdp_success "em" (effective_params Sample.em_defaults None)), (self, w2)) /\
    is_dir w2 (resolve w1 (workspace self)) /\
    stat (root w2) (resolve w1 (workspace self) ++ ["em" +:+ ".mdp"]) =
      Some (File (mdp_content format_PyValue "em" (effective_params Sample.em_defaults None))).
Proof.
  destruct (create_mdp_file_in_workspace format_PyValue Sample.MDP_TYPES
              Sample.DEFAULT_MDP_PARAMS Sample.SimulationStage default_workspace "em" None
              Sample.em_defaults Sample.world _ _ sample_init_returns sample_em_known
              sample_em_defaults sample_em_no_slash sample_workspace_writable)
    as (w2 & Hrun & Hdir & Hstat).
  eexists _, _, w2. split; [exact sample_init_returns|].
  split; [vm_compute; reflexivity|]. split; [exact Hrun|]. split; [exact Hdir | exact Hstat].
Defined.
